(** * Smart reporter: rolling test history, flakiness and trend analysis

    A shallow embedding of the history-driven analysis pipeline of the
    Playwright smart reporter ([SmartReporter], the reporter class that
    follows the page object in [src/pages/QuickTransactionPage.ts]) and of
    the history-merge command line tool ([src/src/merge-history.ts]),
    together with the parts of the report built on them: step extraction,
    test cards, file groups and filters, webhook notifications, the retry
    analysis ([RetryAnalyzer]) and the text utilities ([escapeHtml],
    [sanitizeId], [sanitizeFilename], [truncate], [hashString]).

    Conventions of the embedding:
    - a JavaScript [number] that takes part in floating-point arithmetic
      (durations, scores, percentages) is an IEEE 754 binary64 value, the
      kernel's primitive [float]; counts obtained from [Array.length] are
      [nat]; integer configuration and clock values are [Z];
    - the object used as a dictionary, [history.tests], is a [gmap] from
      test identity to the test's entries;
    - the reporter's mutable fields are a record that every method takes
      and returns; the clock ([Date.now], [new Date().toISOString]) and
      the file system are explicit arguments;
    - template strings are kept as constructors that carry the values they
      interpolate. *)

From Stdlib Require Import ZArith Floats Uint63 String Ascii.
From stdpp Require Import gmap strings list fin_maps sorting.

Set Warnings "-inexact-float,-register-all".

(* ===================================================================== *)
(** ** JavaScript numbers *)
(* ===================================================================== *)

Module JS.

(** An integer-valued number, as [Array.length] or a clock difference
    yields it (exact below 2^53). *)
Definition float_of_Z (z : Z) : float :=
  if (z <? 0)%Z then PrimFloat.opp (PrimFloat.of_uint63 (Uint63.of_Z (- z)))
  else PrimFloat.of_uint63 (Uint63.of_Z z).

Definition float_of_nat (n : nat) : float := float_of_Z (Z.of_nat n).

(** [Math.round]: the closest integer, ties towards +infinity; NaN,
    infinities, zeros and integers are returned unchanged; a result of
    zero keeps the sign of the argument. *)
Definition Math_round (x : float) : float :=
  match Prim2SF x with
  | S754_finite s m e =>
      if (0 <=? e)%Z then x
      else
        let v := if s then Z.neg m else Z.pos m in
        let n := ((2 * v + 2 ^ (- e)) / 2 ^ (1 - e))%Z in
        if (n =? 0)%Z then (if s then PrimFloat.neg_zero else PrimFloat.zero)
        else float_of_Z n
  | _ => x
  end.

Definition Math_abs (x : float) : float := PrimFloat.abs x.

(** ToBoolean on a number: [0], [-0] and [NaN] are falsy. *)
Definition truthy (x : float) : bool :=
  negb (PrimFloat.eqb x PrimFloat.zero) && negb (PrimFloat.is_nan x).

(** [Array.prototype.slice(start)] with an integer [start]: a negative
    [start] counts from the end, and the index is clamped to the array. *)
Definition slice_from {A : Type} (start : Z) (l : list A) : list A :=
  let len := Z.of_nat (length l) in
  let k := if (start <? 0)%Z then Z.max (len + start) 0 else Z.min start len in
  drop (Z.to_nat k) l.

End JS.

(* ===================================================================== *)
(** ** Types *)
(* ===================================================================== *)

Inductive Status : Set := Passed | Failed | Skipped | TimedOut | Interrupted.

#[global] Instance Status_eq_dec : EqDecision Status.
Proof. solve_decision. Defined.

(** [SmartReporterOptions] after the constructor has filled the defaults. *)
Record SmartReporterOptions : Type := mkOptions {
  outputFile : string;
  historyFile : string;
  maxHistoryRuns : Z;            (* an integer number of runs *)
  performanceThreshold : float;
  slackWebhook : option string;
  teamsWebhook : option string
}.

(** The options as the user gives them: every field may be absent. *)
Record RawOptions : Type := mkRawOptions {
  raw_outputFile : option string;
  raw_historyFile : option string;
  raw_maxHistoryRuns : option Z;
  raw_performanceThreshold : option float;
  raw_slackWebhook : option string;
  raw_teamsWebhook : option string
}.

Record TestHistoryEntry : Type := mkEntry {
  he_passed : bool;
  he_duration : float;
  he_timestamp : string;
  he_skipped : option bool      (* [skipped?: boolean] *)
}.

Record RunSummary : Type := mkSummary {
  rs_runId : string;
  rs_timestamp : string;
  rs_total : nat;
  rs_passed : nat;
  rs_failed : nat;
  rs_skipped : nat;
  rs_flaky : nat;
  rs_slow : nat;
  rs_duration : Z;
  rs_passRate : float
}.

Record RunMetadata : Type := mkRun {
  runId : string;
  run_timestamp : string
}.

Record TestHistory : Type := mkHistory {
  runs : list RunMetadata;
  tests : gmap string (list TestHistoryEntry);
  summaries : option (list RunSummary)   (* [summaries?: RunSummary[]] *)
}.

(** The labels [onTestEnd] writes into [flakinessIndicator]. *)
Inductive FlakinessIndicator : Set :=
| IndStable | IndUnstable | IndFlaky | IndNew | IndSkipped.

(** The labels written into [performanceTrend]; [TrendSlower p] stands for
    the string made of the up arrow, [p] and [% slower], [TrendFaster p]
    for the down arrow, [p] and [% faster]. *)
Inductive PerformanceTrend : Set :=
| TrendSlower (pct : float)
| TrendFaster (pct : float)
| TrendStable
| TrendBaseline
| TrendSkipped.

(** [startsWith] on the up arrow: only the "slower" label begins with it. *)
Definition starts_with_up (t : PerformanceTrend) : bool :=
  match t with TrendSlower _ => true | _ => false end.

Record TestResultData : Type := mkResult {
  testId : string;
  title : string;
  file : string;
  status : Status;
  duration : float;
  retry : Z;
  flakinessScore : option float;
  flakinessIndicator : option FlakinessIndicator;
  performanceTrend : option PerformanceTrend;
  averageDuration : option float;
  td_history : list TestHistoryEntry
}.

(** The reporter's fields. *)
Record SmartReporter : Type := mkReporter {
  options : SmartReporterOptions;
  results : list TestResultData;
  history : TestHistory;
  currentRun : RunMetadata;
  startTime : Z;
  outputDir : string
}.

Definition empty_history : TestHistory :=
  {| runs := []; tests := ∅; summaries := Some [] |}.

(** The constructor: [??] keeps a given value and fills a missing one. *)
Definition new_SmartReporter (o : RawOptions) : SmartReporter :=
  {| options :=
       {| outputFile := default "smart-report.html" (raw_outputFile o);
          historyFile := default "test-history.json" (raw_historyFile o);
          maxHistoryRuns := default 10%Z (raw_maxHistoryRuns o);
          performanceThreshold := default 0.2%float (raw_performanceThreshold o);
          slackWebhook := raw_slackWebhook o;
          teamsWebhook := raw_teamsWebhook o |};
     results := [];
     history := empty_history;
     currentRun := {| runId := ""; run_timestamp := "" |};
     startTime := 0;
     outputDir := "" |}.

Definition set_history (r : SmartReporter) (h : TestHistory) : SmartReporter :=
  {| options := options r; results := results r; history := h;
     currentRun := currentRun r; startTime := startTime r;
     outputDir := outputDir r |}.

Definition set_results (r : SmartReporter) (rs : list TestResultData) : SmartReporter :=
  {| options := options r; results := rs; history := history r;
     currentRun := currentRun r; startTime := startTime r;
     outputDir := outputDir r |}.

(* ===================================================================== *)
(** ** Flakiness and performance ([onTestEnd]) *)
(* ===================================================================== *)

Definition getFlakinessIndicator (score : float) : FlakinessIndicator :=
  if (score <? 0.1)%float then IndStable
  else if (score <? 0.3)%float then IndUnstable
  else IndFlaky.

Definition getPerformanceTrend (o : SmartReporterOptions)
    (current average : float) : PerformanceTrend :=
  let diff := ((current - average) / average)%float in
  if (performanceThreshold o <? diff)%float then
    TrendSlower (JS.Math_round (diff * 100)%float)
  else if (diff <? - performanceThreshold o)%float then
    TrendFaster (JS.Math_round (JS.Math_abs diff * 100)%float)
  else TrendStable.

(** [e => !e.skipped]: a missing [skipped] is falsy. *)
Definition not_skipped (e : TestHistoryEntry) : bool :=
  negb (default false (he_skipped e)).

(** [e => !e.passed]. *)
Definition not_passed (e : TestHistoryEntry) : bool := negb (he_passed e).

Definition sum_durations (l : list TestHistoryEntry) : float :=
  foldl (λ sum e, (sum + he_duration e)%float) 0%float l.

(** What the runner hands to [onTestEnd], reduced to the fields the
    analysis reads (steps, errors and attachments are carried through
    unchanged by the source and left out here). *)
Record TestEvent : Type := mkEvent {
  ev_testId : string;
  ev_title : string;
  ev_file : string;
  ev_status : Status;
  ev_duration : float;
  ev_retry : Z
}.

(** The record [onTestEnd] pushes for one finished test. *)
Definition analyse (r : SmartReporter) (ev : TestEvent) : TestResultData :=
  let historyEntries := default [] (tests (history r) !! ev_testId ev) in
  let base score ind trend avg :=
    {| testId := ev_testId ev; title := ev_title ev; file := ev_file ev;
       status := ev_status ev; duration := ev_duration ev;
       retry := ev_retry ev;
       flakinessScore := score; flakinessIndicator := ind;
       performanceTrend := trend; averageDuration := avg;
       td_history := historyEntries |} in
  if bool_decide (ev_status ev = Skipped) then
    base None (Some IndSkipped) (Some TrendSkipped) None
  else if (0 <? length historyEntries)%nat then
    let relevantHistory := List.filter not_skipped historyEntries in
    if (0 <? length relevantHistory)%nat then
      let failures := length (List.filter not_passed relevantHistory) in
      let flakinessScore :=
        (JS.float_of_nat failures / JS.float_of_nat (length relevantHistory))%float in
      let avgDuration :=
        (sum_durations relevantHistory / JS.float_of_nat (length relevantHistory))%float in
      base (Some flakinessScore)
           (Some (getFlakinessIndicator flakinessScore))
           (Some (getPerformanceTrend (options r) (ev_duration ev) avgDuration))
           (Some avgDuration)
    else base None (Some IndNew) (Some TrendBaseline) None
  else base None (Some IndNew) (Some TrendBaseline) None.

Definition onTestEnd (r : SmartReporter) (ev : TestEvent) : SmartReporter :=
  set_results r (results r ++ [analyse r ev]).

(* ===================================================================== *)
(** ** History management ([updateHistory]) *)
(* ===================================================================== *)

(** [if (a.length > maxHistoryRuns) a = a.slice(-maxHistoryRuns)]. *)
Definition trim_to_last {A : Type} (maxRuns : Z) (l : list A) : list A :=
  if (maxRuns <? Z.of_nat (length l))%Z then JS.slice_from (- maxRuns) l else l.

(** The entry pushed for one result of the current run. *)
Definition entry_of (timestamp : string) (result : TestResultData) : TestHistoryEntry :=
  {| he_passed := bool_decide (status result = Passed);
     he_duration := duration result;
     he_timestamp := timestamp;
     he_skipped := Some (bool_decide (status result = Skipped)) |}.

(** One iteration of the loop over [this.results]: create the sequence
    when it is missing, push, then keep the last [maxHistoryRuns]. *)
Definition record_result (maxRuns : Z) (timestamp : string)
    (ts : gmap string (list TestHistoryEntry)) (result : TestResultData)
    : gmap string (list TestHistoryEntry) :=
  let current := default [] (ts !! testId result) in
  <[ testId result := trim_to_last maxRuns (current ++ [entry_of timestamp result]) ]> ts.

Definition count_results (p : TestResultData → bool) (rs : list TestResultData) : nat :=
  length (List.filter p rs).

Definition has_status (s : Status) (r : TestResultData) : bool :=
  bool_decide (status r = s).

Definition failed_or_timedOut (r : TestResultData) : bool :=
  has_status Failed r || has_status TimedOut r.

(** [r.flakinessScore && r.flakinessScore >= 0.3]. *)
Definition is_flaky (r : TestResultData) : bool :=
  match flakinessScore r with
  | Some s => JS.truthy s && (0.3 <=? s)%float
  | None => false
  end.

(** [r.performanceTrend?.startsWith(up arrow)]. *)
Definition is_slow (r : TestResultData) : bool :=
  match performanceTrend r with
  | Some t => starts_with_up t
  | None => false
  end.

(** [(passed + failed) > 0 ? Math.round((passed / (passed + failed)) * 100) : 0]. *)
Definition pass_rate (passed failed : nat) : float :=
  if (0 <? passed + failed)%nat then
    JS.Math_round
      ((JS.float_of_nat passed / JS.float_of_nat (passed + failed)) * 100)%float
  else 0%float.

(** The run summary [updateHistory] pushes; [now] is [Date.now()]. *)
Definition run_summary (r : SmartReporter) (now : Z) : RunSummary :=
  let passed := count_results (has_status Passed) (results r) in
  let failed := count_results failed_or_timedOut (results r) in
  {| rs_runId := runId (currentRun r);
     rs_timestamp := run_timestamp (currentRun r);
     rs_total := length (results r);
     rs_passed := passed;
     rs_failed := failed;
     rs_skipped := count_results (has_status Skipped) (results r);
     rs_flaky := count_results is_flaky (results r);
     rs_slow := count_results is_slow (results r);
     rs_duration := (now - startTime r)%Z;
     rs_passRate := pass_rate passed failed |}.

(** [updateHistory]: [timestamp] is [new Date().toISOString()] and [now]
    is [Date.now()]; the history of the returned reporter is the document
    written to the history file. *)
Definition updateHistory (r : SmartReporter) (timestamp : string) (now : Z)
    : SmartReporter :=
  let h := history r in
  let maxRuns := maxHistoryRuns (options r) in
  let tests' := foldl (record_result maxRuns timestamp) (tests h) (results r) in
  let summaries' :=
    trim_to_last maxRuns (default [] (summaries h) ++ [run_summary r now]) in
  set_history r {| runs := runs h; tests := tests'; summaries := Some summaries' |}.

(** A run as [updateHistory] sees it, and the record operation applied to
    a persisted document: every run is a fresh reporter that loaded the
    document the previous run wrote. *)
Record RunInput : Type := mkRunInput {
  in_results : list TestResultData;
  in_run : RunMetadata;
  in_startTime : Z;
  in_timestamp : string;
  in_now : Z
}.

Definition reporter_of_run (o : SmartReporterOptions) (h : TestHistory) (run : RunInput)
    : SmartReporter :=
  {| options := o; results := in_results run; history := h;
     currentRun := in_run run; startTime := in_startTime run;
     outputDir := "" |}.

Definition record_run (o : SmartReporterOptions) (h : TestHistory) (run : RunInput)
    : TestHistory :=
  history (updateHistory (reporter_of_run o h run) (in_timestamp run) (in_now run)).

Definition record_runs (o : SmartReporterOptions) (h : TestHistory)
    (rs : list RunInput) : TestHistory :=
  foldl (record_run o) h rs.

(** Whether a test identity occurs among the results of some run. *)
Definition recorded_in (id : string) (rs : list RunInput) : Prop :=
  ∃ run t, run ∈ rs ∧ t ∈ in_results run ∧ testId t = id.

(** The retention bound of the data model. *)
Definition bounded_at (maxRuns : Z) (ts : gmap string (list TestHistoryEntry))
    (id : string) : Prop :=
  ∀ l, ts !! id = Some l → (Z.of_nat (length l) ≤ maxRuns)%Z.

Definition tests_bounded (maxRuns : Z) (h : TestHistory) : Prop :=
  ∀ id, bounded_at maxRuns (tests h) id.

Definition summaries_bounded (maxRuns : Z) (h : TestHistory) : Prop :=
  ∀ l, summaries h = Some l → (Z.of_nat (length l) ≤ maxRuns)%Z.

Definition history_bounded (maxRuns : Z) (h : TestHistory) : Prop :=
  tests_bounded maxRuns h ∧ summaries_bounded maxRuns h.

(** The most recent [n] elements of a sequence. *)
Definition last_n {A : Type} (n : nat) (l : list A) : list A :=
  drop (length l - n) l.

(* ===================================================================== *)
(** ** Report statistics and trend chart ([generateHtml], [generateTrendChart]) *)
(* ===================================================================== *)

(** [Math.max] on two numbers: NaN when either is NaN, and [+0] above [-0]. *)
Definition Math_max (a b : float) : float :=
  if PrimFloat.is_nan a || PrimFloat.is_nan b then nan
  else if (a <? b)%float then b
  else if (b <? a)%float then a
  else if PrimFloat.get_sign a then b else a.

Inductive BarLabel : Type :=
| LabelDate (timestamp : string)   (* the run's date, short month and day *)
| LabelCurrent.

(** One stacked bar of the status chart: the failed segment (height in
    pixels and count) is rendered only when its percentage is positive. *)
Record StackedBar : Type := mkBar {
  bar_failed : option (float * nat);
  bar_passed : float * nat;
  bar_label : BarLabel
}.

(** One bar of a secondary chart: height in pixels and displayed value. *)
Record SecondaryBar : Type := mkSecondary {
  sec_height : float;
  sec_value : Z
}.

Record TrendChart : Type := mkChart {
  chart_runs : nat;                       (* "Last n runs" *)
  chart_bars : list StackedBar;
  chart_currentBar : StackedBar;
  chart_durationBars : list SecondaryBar;
  chart_currentDurationBar : SecondaryBar;
  chart_flakyBars : list SecondaryBar;
  chart_currentFlakyBar : SecondaryBar;
  chart_slowBars : list SecondaryBar;
  chart_currentSlowBar : SecondaryBar
}.

Definition maxBarHeight : float := 80%float.
Definition secondaryBarHeight : float := 35%float.

(** [a + b || 1]. *)
Definition non_skipped_total (passed failed : nat) : nat :=
  if (passed + failed =? 0)%nat then 1%nat else (passed + failed)%nat.

Definition pct (part total : nat) : float :=
  ((JS.float_of_nat part / JS.float_of_nat total) * 100)%float.

Definition summary_bar (s : RunSummary) : StackedBar :=
  let nonSkippedTotal := non_skipped_total (rs_passed s) (rs_failed s) in
  let passedPct := pct (rs_passed s) nonSkippedTotal in
  let failedPct := pct (rs_failed s) nonSkippedTotal in
  let totalHeight := (passedPct + failedPct)%float in
  let scaleFactor :=
    if (0 <? totalHeight)%float then (maxBarHeight / 100)%float else 1%float in
  {| bar_failed :=
       if (0 <? failedPct)%float
       then Some ((failedPct * scaleFactor)%float, rs_failed s) else None;
     bar_passed := ((passedPct * scaleFactor)%float, rs_passed s);
     bar_label := LabelDate (rs_timestamp s) |}.

Definition current_bar (passed failed : nat) : StackedBar :=
  let currentNonSkippedTotal := non_skipped_total passed failed in
  let currentPassedPct := pct passed currentNonSkippedTotal in
  let currentFailedPct := pct failed currentNonSkippedTotal in
  let currentScaleFactor := (maxBarHeight / 100)%float in
  {| bar_failed :=
       if (0 <? currentFailedPct)%float
       then Some ((currentFailedPct * currentScaleFactor)%float, failed) else None;
     bar_passed := ((currentPassedPct * currentScaleFactor)%float, passed);
     bar_label := LabelCurrent |}.

(** [maxDuration > 0 ? Math.max(4, (duration / maxDuration) * 35) : 4]. *)
Definition duration_bar (maxDuration duration : Z) : SecondaryBar :=
  {| sec_height :=
       if (0 <? maxDuration)%Z then
         Math_max 4 ((JS.float_of_Z duration / JS.float_of_Z maxDuration)
                     * secondaryBarHeight)%float
       else 4%float;
     sec_value := duration |}.

(** [maxCount > 0 ? Math.max(count > 0 ? 4 : 0, (count / maxCount) * 35) : 0]. *)
Definition count_bar (maxCount count : nat) : SecondaryBar :=
  {| sec_height :=
       if (0 <? maxCount)%nat then
         Math_max (if (0 <? count)%nat then 4 else 0)
                  ((JS.float_of_nat count / JS.float_of_nat maxCount)
                   * secondaryBarHeight)%float
       else 0%float;
     sec_value := Z.of_nat count |}.

(** [generateTrendChart]: [None] is the empty string. The summaries are
    those of the loaded document; the current run is added from
    [this.results]. On the integer fields of a summary [x || 0] is [x]. *)
Definition generateTrendChart (r : SmartReporter) (now : Z) : option TrendChart :=
  let summaries := default [] (summaries (history r)) in
  if (length summaries <? 2)%nat then None
  else
    let passed := count_results (has_status Passed) (results r) in
    let failed := count_results failed_or_timedOut (results r) in
    let currentFlaky := count_results is_flaky (results r) in
    let currentSlow := count_results is_slow (results r) in
    let currentDuration := (now - startTime r)%Z in
    let maxDuration := foldl Z.max currentDuration (rs_duration <$> summaries) in
    let maxFlaky := foldl Nat.max 1%nat ((rs_flaky <$> summaries) ++ [currentFlaky]) in
    let maxSlow := foldl Nat.max 1%nat ((rs_slow <$> summaries) ++ [currentSlow]) in
    Some
      {| chart_runs := length summaries + 1;
         chart_bars := summary_bar <$> summaries;
         chart_currentBar := current_bar passed failed;
         chart_durationBars := (λ s, duration_bar maxDuration (rs_duration s)) <$> summaries;
         chart_currentDurationBar := duration_bar maxDuration currentDuration;
         chart_flakyBars := (λ s, count_bar maxFlaky (rs_flaky s)) <$> summaries;
         chart_currentFlakyBar := count_bar maxFlaky currentFlaky;
         chart_slowBars := (λ s, count_bar maxSlow (rs_slow s)) <$> summaries;
         chart_currentSlowBar := count_bar maxSlow currentSlow |}.

(** The data points the status chart shows, in display order. *)
Definition chart_points (c : TrendChart) : list StackedBar :=
  chart_bars c ++ [chart_currentBar c].

Definition trend_points (t : option TrendChart) : list StackedBar :=
  match t with Some c => chart_points c | None => [] end.

(** The values [generateHtml] computes and interpolates into the page. *)
Record HtmlReport : Type := mkHtml {
  html_totalDuration : Z;
  html_passed : nat;
  html_failed : nat;
  html_skipped : nat;
  html_flaky : nat;
  html_slow : nat;
  html_total : nat;
  html_passRate : float;
  html_tests : list TestResultData;       (* [testsJson] *)
  html_trend : option TrendChart
}.

(** [now] is the clock read by [generateHtml] itself, [nowTrend] the later
    one read inside [generateTrendChart]. *)
Definition generateHtml (r : SmartReporter) (now nowTrend : Z) : HtmlReport :=
  let passed := count_results (has_status Passed) (results r) in
  let failed := count_results (has_status Failed) (results r) in
  {| html_totalDuration := (now - startTime r)%Z;
     html_passed := passed;
     html_failed := failed;
     html_skipped := count_results (has_status Skipped) (results r);
     html_flaky := count_results is_flaky (results r);
     html_slow := count_results is_slow (results r);
     html_total := length (results r);
     html_passRate := pass_rate passed failed;
     html_tests := results r;
     html_trend := generateTrendChart r nowTrend |}.

(* ===================================================================== *)
(** ** Loading the history file ([loadHistory]) *)
(* ===================================================================== *)

(** A value as [JSON.parse] returns it. The fields of an object are listed
    once each, in insertion order. *)
Inductive json : Type :=
| JNull
| JBool (b : bool)
| JNumber (x : float)
| JString (s : string)
| JArray (items : list json)
| JObject (fields : list (string * json)).

(** A statement or expression either completes with a value or throws. *)
Inductive completion (A : Type) : Type :=
| Normal (a : A)
| Throws.
Arguments Normal {A} a.
Arguments Throws {A}.

Definition bind_completion {A B : Type} (c : completion A) (k : A → completion B)
    : completion B :=
  match c with Normal a => k a | Throws => Throws end.

(** [try { body } catch { handler }]. *)
Definition try_catch {A : Type} (body handler : completion A) : completion A :=
  match body with Normal a => Normal a | Throws => handler end.

Fixpoint assoc (k : string) (fields : list (string * json)) : option json :=
  match fields with
  | [] => None
  | (k', v) :: rest => if String.eqb k k' then Some v else assoc k rest
  end.

(** Property read [v.tests]: a [TypeError] on [null], [undefined] ([None])
    on a value without that property. *)
Definition get_tests (v : json) : completion (option json) :=
  match v with
  | JNull => Throws
  | JObject fields => Normal (assoc "tests" fields)
  | _ => Normal None
  end.

(** ToBoolean of a property read. *)
Definition json_truthy (v : option json) : bool :=
  match v with
  | None | Some JNull => false
  | Some (JBool b) => b
  | Some (JNumber x) => JS.truthy x
  | Some (JString s) => negb (String.eqb s "")
  | Some (JArray _) | Some (JObject _) => true
  end.

(** The history file: absent, or present with what
    [JSON.parse(fs.readFileSync(historyPath, 'utf-8'))] does on it
    ([Throws] when the read or the parse fails). *)
Inductive HistoryFile : Type :=
| FileMissing
| FileExists (parsed : completion json).

(** [{ runs: [], tests: {}, summaries: [] }]. *)
Definition empty_document : json :=
  JObject [("runs", JArray []); ("tests", JObject []); ("summaries", JArray [])].

(** [{ runs: [], tests: loaded, summaries: [] }]. *)
Definition upgraded_document (loaded : json) : json :=
  JObject [("runs", JArray []); ("tests", loaded); ("summaries", JArray [])].

(** [loadHistory] on the document held in [this.history] ([current]); the
    result is the document held afterwards, which the reporter reads
    through the [TestHistory] interface. *)
Definition loadHistory (current : json) (f : HistoryFile) : completion json :=
  match f with
  | FileMissing => Normal current
  | FileExists parsed =>
      try_catch
        (bind_completion parsed (λ loaded,
           bind_completion (get_tests loaded) (λ t,
             if json_truthy t then Normal loaded
             else Normal (upgraded_document loaded))))
        (Normal empty_document)
  end.

(** [getTestId]: the relative file path, two colons, the title. *)
Definition getTestId (file title : string) : string :=
  file ++ "::" ++ title.

(** A legacy document: the root object is the tests mapping itself, so
    every key is a test identity. *)
Definition legacy_mapping (fields : list (string * json)) : Prop :=
  Forall (λ kv, ∃ file title, kv.1 = getTestId file title) fields.

(* ===================================================================== *)
(** ** The merge command line tool ([merge-history.ts]) *)
(* ===================================================================== *)

Definition is_digit (c : ascii) : bool :=
  (48 <=? nat_of_ascii c)%nat && (nat_of_ascii c <=? 57)%nat.

Definition is_space (c : ascii) : bool :=
  let n := nat_of_ascii c in
  (n =? 32)%nat || ((9 <=? n)%nat && (n <=? 13)%nat).

Fixpoint skip_spaces (s : string) : string :=
  match s with
  | String c rest => if is_space c then skip_spaces rest else s
  | EmptyString => s
  end.

Fixpoint leading_digits (s : string) (acc : option Z) : option Z :=
  match s with
  | String c rest =>
      if is_digit c
      then leading_digits rest
             (Some (10 * default 0%Z acc + (Z.of_nat (nat_of_ascii c) - 48))%Z)
      else acc
  | EmptyString => acc
  end.

(** [parseInt(s, 10)] as an integer, [None] for NaN; [s = None] is
    [undefined]. ASCII white space only. *)
Definition parseInt10 (s : option string) : option Z :=
  match s with
  | None => None
  | Some s =>
      match skip_spaces s with
      | String "-" rest => Z.opp <$> leading_digits rest None
      | String "+" rest => leading_digits rest None
      | t => leading_digits t None
      end
  end.

(** The loop's variables: [maxRuns = None] is NaN, [cli_outputFile = None]
    is [null] or [undefined]. *)
Record CliState : Type := mkCli {
  cli_historyFiles : list string;
  cli_outputFile : option string;
  cli_maxRuns : option Z
}.

Definition is_option_o (arg : string) : bool :=
  String.eqb arg "-o" || String.eqb arg "--output".
Definition is_option_n (arg : string) : bool :=
  String.eqb arg "-n" || String.eqb arg "--max-runs".
Definition starts_with_dash (arg : string) : bool :=
  match arg with String "-" _ => true | _ => false end.

(** The [for] loop over [args]; [args[++i]] consumes the next argument
    and is [undefined] past the end. *)
Fixpoint parse_args (args : list string) (st : CliState) : CliState :=
  match args with
  | [] => st
  | arg :: rest =>
      if is_option_o arg then
        match rest with
        | v :: rest' =>
            parse_args rest'
              {| cli_historyFiles := cli_historyFiles st;
                 cli_outputFile := Some v; cli_maxRuns := cli_maxRuns st |}
        | [] =>
            {| cli_historyFiles := cli_historyFiles st;
               cli_outputFile := None; cli_maxRuns := cli_maxRuns st |}
        end
      else if is_option_n arg then
        match rest with
        | v :: rest' =>
            parse_args rest'
              {| cli_historyFiles := cli_historyFiles st;
                 cli_outputFile := cli_outputFile st;
                 cli_maxRuns := parseInt10 (Some v) |}
        | [] =>
            {| cli_historyFiles := cli_historyFiles st;
               cli_outputFile := cli_outputFile st;
               cli_maxRuns := parseInt10 None |}
        end
      else if negb (starts_with_dash arg) then
        parse_args rest
          {| cli_historyFiles := cli_historyFiles st ++ [arg];
             cli_outputFile := cli_outputFile st; cli_maxRuns := cli_maxRuns st |}
      else parse_args rest st
  end.

Definition initial_cli : CliState :=
  {| cli_historyFiles := []; cli_outputFile := None; cli_maxRuns := Some 10%Z |}.

(** What [main] does: leave through [process.exit] (after the usage text,
    and an error line when the code is 1), or call [mergeHistories]. *)
Inductive MainAction : Type :=
| Exit (code : Z) (error : option string)
| CallMerge (historyFiles : list string) (outputFile : string) (maxRuns : option Z).

Definition help_requested (args : list string) : bool :=
  bool_decide ("-h" ∈ args) || bool_decide ("--help" ∈ args).

(** [!outputFile]: [null], [undefined] and the empty string are falsy. *)
Definition output_given (st : CliState) : option string :=
  match cli_outputFile st with
  | Some s => if String.eqb s "" then None else Some s
  | None => None
  end.

Definition main (args : list string) : MainAction :=
  if (length args =? 0)%nat || help_requested args then Exit 0 None
  else
    let st := parse_args args initial_cli in
    if (length (cli_historyFiles st) =? 0)%nat then
      Exit 1 (Some "Error: No history files provided")
    else
      match output_given st with
      | None => Exit 1 (Some "Error: Output file not specified. Use -o <output.json>")
      | Some out => CallMerge (cli_historyFiles st) out (cli_maxRuns st)
      end.

(** The exit code of the process: [mergeHistories] is imported from a
    module that is not among the sources, so what the call does is an
    argument ([true] when it returns, [false] when it throws); a process
    whose [main] returns exits with 0, an uncaught exception gives 1. *)
Definition exit_code (merge_returns : list string → string → option Z → bool)
    (args : list string) : Z :=
  match main args with
  | Exit code _ => code
  | CallMerge files out maxRuns => if merge_returns files out maxRuns then 0 else 1
  end.

(* ===================================================================== *)
(** ** Merging history documents ([mergeHistories]) *)
(* ===================================================================== *)

(** Modelled from the spec: the order behind "sorted by timestamp
    ascending" (section 4.1), the merge function being absent from the
    sources. Timestamps are ISO-8601 strings as [toISOString] prints them;
    on those the ascending order is the order of the strings. *)
Definition ts_le {A : Type} (ts : A → string) (x y : A) : Prop :=
  String.leb (ts x) (ts y) = true.

(** Modelled from the spec: the sort of the absent merge function, "ties
    keep input order" (section 4.1). Insertion after every element that is
    not later gives a stable sort. *)
Fixpoint insert_by_timestamp {A : Type} (ts : A → string) (x : A) (l : list A) : list A :=
  match l with
  | [] => [x]
  | y :: l' =>
      if String.ltb (ts x) (ts y) then x :: l
      else y :: insert_by_timestamp ts x l'
  end.

Definition sort_by_timestamp {A : Type} (ts : A → string) (l : list A) : list A :=
  foldl (λ acc x, insert_by_timestamp ts x acc) [] l.

(** Modelled from the spec: "de-duplicated by runId" in the absent merge
    function (section 4.1); the first occurrence of an id is kept. *)
Fixpoint dedup_by_runId {A : Type} (key : A → string) (l : list A) : list A :=
  match l with
  | [] => []
  | x :: l' =>
      x :: List.filter (λ y, negb (String.eqb (key y) (key x))) (dedup_by_runId key l')
  end.

(** Modelled from the spec: when two entries of a test are the same
    element of "the union across inputs" (section 4.1). An entry carries
    no identifier, so two entries are the same when all their fields are. *)
Definition same_entry (a b : TestHistoryEntry) : bool :=
  Bool.eqb (he_passed a) (he_passed b)
  && PrimFloat.Leibniz.eqb (he_duration a) (he_duration b)
  && String.eqb (he_timestamp a) (he_timestamp b)
  && bool_decide (he_skipped a = he_skipped b).

(** Modelled from the spec: a union holds an element once; as for the run
    ids, the first occurrence is the one kept. *)
Fixpoint dedup_first {A : Type} (same : A → A → bool) (l : list A) : list A :=
  match l with
  | [] => []
  | x :: l' => x :: List.filter (λ y, negb (same y x)) (dedup_first same l')
  end.

(** The entries of every test, input after input. *)
Definition concat_tests (docs : list TestHistory) : gmap string (list TestHistoryEntry) :=
  foldl (λ acc d, union_with (λ a b, Some (a ++ b)) acc (tests d)) ∅ docs.

(** Modelled from the spec: "the union across inputs" of a test's entries
    in the absent merge function (section 4.1), test by test and in input
    order, an entry that occurs more than once being kept once ("merging
    a document with itself yields the same document"). *)
Definition union_tests (docs : list TestHistory) : gmap string (list TestHistoryEntry) :=
  dedup_first same_entry <$> concat_tests docs.

Definition all_runs (docs : list TestHistory) : list RunMetadata :=
  mjoin (runs <$> docs).

Definition all_summaries (docs : list TestHistory) : list RunSummary :=
  mjoin ((λ d, default [] (summaries d)) <$> docs).

(** Modelled from the spec: [mergeHistories] is imported by
    [merge-history.ts] from the reporter module, whose merge function is
    not among the sources. Section 4.1 (Merge): [runs] is the union of the
    run metadata de-duplicated by run id; every test identity present in
    an input gets the union of its entries across the inputs, sorted by
    timestamp ascending and truncated to the last [maxHistoryRuns];
    [summaries] is the union de-duplicated by run id, sorted by timestamp
    ascending and truncated the same way; ties keep input order. The
    documents stand for the parsed input files, the result for the
    document written to the output file. *)
Definition mergeHistories (maxRuns : nat) (docs : list TestHistory) : TestHistory :=
  {| runs := dedup_by_runId runId (all_runs docs);
     tests := (λ l, last_n maxRuns (sort_by_timestamp he_timestamp l))
                <$> union_tests docs;
     summaries :=
       Some (last_n maxRuns
               (sort_by_timestamp rs_timestamp
                  (dedup_by_runId rs_runId (all_summaries docs)))) |}.

Definition sorted_by {A : Type} (ts : A → string) (l : list A) : Prop :=
  StronglySorted (ts_le ts) l.







(* ===================================================================== *)
(** ** Sample inputs *)
(* ===================================================================== *)

Definition default_options : SmartReporterOptions :=
  options (new_SmartReporter
             {| raw_outputFile := None; raw_historyFile := None;
                raw_maxHistoryRuns := None; raw_performanceThreshold := None;
                raw_slackWebhook := None; raw_teamsWebhook := None |}).

Definition options_with_max (n : Z) : SmartReporterOptions :=
  {| outputFile := outputFile default_options;
     historyFile := historyFile default_options;
     maxHistoryRuns := n;
     performanceThreshold := performanceThreshold default_options;
     slackWebhook := None; teamsWebhook := None |}.

Definition sample_entry (passed : bool) (ms : float) (stamp : string) : TestHistoryEntry :=
  {| he_passed := passed; he_duration := ms; he_timestamp := stamp;
     he_skipped := Some false |}.

Definition skipped_entry (stamp : string) : TestHistoryEntry :=
  {| he_passed := false; he_duration := 0; he_timestamp := stamp;
     he_skipped := Some true |}.

Definition reporter_with (o : SmartReporterOptions) (h : TestHistory)
    (rs : list TestResultData) : SmartReporter :=
  {| options := o; results := rs; history := h;
     currentRun := {| runId := "run-1700000000000";
                      run_timestamp := "2023-11-14T22:13:20.000Z" |};
     startTime := 1700000000000; outputDir := "/repo" |}.

Definition history_of_tests (ts : gmap string (list TestHistoryEntry)) : TestHistory :=
  {| runs := []; tests := ts; summaries := Some [] |}.

Definition sample_event (id : string) (s : Status) (ms : float) : TestEvent :=
  {| ev_testId := id; ev_title := "t"; ev_file := "a.spec.ts";
     ev_status := s; ev_duration := ms; ev_retry := 0 |}.

Definition sample_result (id : string) (s : Status) : TestResultData :=
  {| testId := id; title := "t"; file := "a.spec.ts"; status := s;
     duration := 12; retry := 0; flakinessScore := None;
     flakinessIndicator := Some IndNew; performanceTrend := Some TrendBaseline;
     averageDuration := None; td_history := [] |}.

(** The score of [failures] failures among [total] non-skipped entries,
    and its comparison with the exact fraction. *)
Definition score_of (failures total : nat) : float :=
  (JS.float_of_nat failures / JS.float_of_nat total)%float.

Definition exact_band (failures total : nat) : FlakinessIndicator :=
  if (10 * failures <? total)%nat then IndStable
  else if (10 * failures <? 3 * total)%nat then IndUnstable
  else IndFlaky.

#[global] Instance FlakinessIndicator_eq_dec : EqDecision FlakinessIndicator.
Proof. solve_decision. Defined.

Definition band_agrees (failures total : nat) : bool :=
  bool_decide (getFlakinessIndicator (score_of failures total) = exact_band failures total).

Definition sample_summary (id stamp : string) (passed failed : nat) : RunSummary :=
  {| rs_runId := id; rs_timestamp := stamp; rs_total := passed + failed;
     rs_passed := passed; rs_failed := failed; rs_skipped := 0; rs_flaky := 0;
     rs_slow := 0; rs_duration := 4000; rs_passRate := pass_rate passed failed |}.

Definition history_of_summaries (ss : list RunSummary) : TestHistory :=
  {| runs := []; tests := ∅; summaries := Some ss |}.

(** Whether a string contains two consecutive colons. *)
Fixpoint has_double_colon (s : string) : bool :=
  match s with
  | EmptyString => false
  | String c rest =>
      match rest with
      | String c' _ =>
          if Ascii.eqb c ":" && Ascii.eqb c' ":" then true else has_double_colon rest
      | EmptyString => false
      end
  end.

Definition sample_run (ids : list string) (stamp : string) : RunInput :=
  {| in_results := (λ id, sample_result id Passed) <$> ids;
     in_run := {| runId := "run-1700000000000"; run_timestamp := stamp |};
     in_startTime := 1700000000000;
     in_timestamp := stamp;
     in_now := 1700000005000 |}.

Definition three_entries : list TestHistoryEntry :=
  [sample_entry true 10 "2023-11-10T10:00:00.000Z";
   sample_entry true 11 "2023-11-11T10:00:00.000Z";
   sample_entry false 12 "2023-11-12T10:00:00.000Z"].

(** The document of one shard: one run, one test, one summary. *)
Definition shard (id stamp : string) (passed : bool) : TestHistory :=
  {| runs := [{| runId := id; run_timestamp := stamp |}];
     tests := {[ "a.spec.ts::t" := [sample_entry passed 10 stamp] ]};
     summaries :=
       Some [sample_summary id stamp (if passed then 1 else 0) (if passed then 0 else 1)] |}.

(* ===================================================================== *)
(** ** Text utilities ([escapeHtml], [sanitizeId], [truncate], [hashString]) *)
(* ===================================================================== *)

(** In this part a string is the sequence of its UTF-16 code units, which
    is what [length], [charCodeAt], [substring] and a regular expression
    without the [u] flag work on.  [units] reads the code units off a
    string of ASCII characters (one unit per character); the ids of cards
    and groups, made from test ids and file names, are exact for such
    text. *)
Definition units (s : string) : list N :=
  N_of_ascii <$> list_ascii_of_string s.

(** [str.replace(/c/g, replacement)] for a single code unit [c]: every
    occurrence is replaced, and the replacement is not scanned again. *)
Definition replace_unit (c : N) (replacement : list N) (str : list N) : list N :=
  List.flat_map (λ x, if (x =? c)%N then replacement else [x]) str.

(** [escapeHtml], the method of the reporter and the function of the
    utilities: five replacements in a row, the ampersand first. *)
Definition escapeHtml (str : list N) : list N :=
  replace_unit 39 (units "&#039;")
    (replace_unit 34 (units "&quot;")
       (replace_unit 62 (units "&gt;")
          (replace_unit 60 (units "&lt;")
             (replace_unit 38 (units "&amp;") str)))).

(** The class [a-zA-Z0-9]. *)
Definition is_alphanumeric (x : N) : bool :=
  ((97 <=? x) && (x <=? 122) || (65 <=? x) && (x <=? 90) || (48 <=? x) && (x <=? 57))%N.

(** [sanitizeId]: [str.replace(/[^a-zA-Z0-9]/g, '_')]. *)
Definition sanitizeId (str : list N) : list N :=
  List.flat_map (λ x, if is_alphanumeric x then [x] else units "_") str.

(** [sanitizeFilename]: slash, backslash and colon become two
    underscores, then angle brackets, double quote, bar, question mark and
    star become one. *)
Definition is_separator (x : N) : bool := ((x =? 47) || (x =? 92) || (x =? 58))%N.
Definition is_reserved (x : N) : bool :=
  ((x =? 60) || (x =? 62) || (x =? 34) || (x =? 124) || (x =? 63) || (x =? 42))%N.

Definition sanitizeFilename (str : list N) : list N :=
  List.flat_map (λ x, if is_reserved x then units "_" else [x])
    (List.flat_map (λ x, if is_separator x then units "__" else [x]) str).

(** [str.substring(0, end)] with an integer [end]: the index is clamped
    to the string. *)
Definition substring_to (str : list N) (stop : Z) : list N :=
  take (Z.to_nat (Z.max 0 (Z.min stop (Z.of_nat (length str))))) str.

(** [truncate] with an integer [maxLength]. *)
Definition truncate (str : list N) (maxLength : Z) : list N :=
  if (Z.of_nat (length str) <=? maxLength)%Z then str
  else substring_to str (maxLength - 3) ++ units "...".

(** ToInt32: the value modulo 2^32, read as a signed 32-bit integer. *)
Definition ToInt32 (z : Z) : Z :=
  let m := (z mod 2 ^ 32)%Z in
  if (m <? 2 ^ 31)%Z then m else (m - 2 ^ 32)%Z.

(** One iteration of the loop of [hashString]: the shift wraps to 32
    bits, the subtraction and the addition are exact, and [hash & hash]
    wraps again. *)
Definition hash_step (hash : Z) (char : N) : Z :=
  ToInt32 (ToInt32 (hash * 2 ^ 5) - hash + Z.of_N char).

Definition hash_loop (str : list N) : Z := foldl hash_step 0%Z str.

Definition hex_digit (d : Z) : N :=
  if (d <? 10)%Z then Z.to_N (48 + d) else Z.to_N (87 + d).

(** [n.toString(16)] for an integer [0 <= n < 16^digits]. *)
Fixpoint to_hex (digits : nat) (n : Z) : list N :=
  match digits with
  | O => []
  | S k =>
      if (n <? 16)%Z then [hex_digit n]
      else to_hex k (n / 16)%Z ++ [hex_digit (n mod 16)%Z]
  end.

(** [hashString]: the absolute value of the hash, at most 2^31, in
    hexadecimal. *)
Definition hashString (str : list N) : list N :=
  to_hex 8 (Z.abs (hash_loop str)).

(** The hash as Horner's rule states it, without wrap-around. *)
Definition horner31 (str : list N) : Z :=
  foldl (λ h c, (31 * h + Z.of_N c)%Z) 0%Z str.

(** What the five replacements of [escapeHtml] do to one code unit. *)
Definition escape_unit (x : N) : list N :=
  if (x =? 38)%N then units "&amp;"
  else if (x =? 60)%N then units "&lt;"
  else if (x =? 62)%N then units "&gt;"
  else if (x =? 34)%N then units "&quot;"
  else if (x =? 39)%N then units "&#039;"
  else [x].

Definition is_html_special (x : N) : bool :=
  ((x =? 38) || (x =? 60) || (x =? 62) || (x =? 34) || (x =? 39))%N.

(** The number a string of lower-case hexadecimal digits denotes. *)
Definition hex_digit_value (x : N) : Z :=
  if (x <? 58)%N then (Z.of_N x - 48)%Z else (Z.of_N x - 87)%Z.

Definition hex_value (digits : list N) : Z :=
  foldl (λ acc x, (16 * acc + hex_digit_value x)%Z) 0%Z digits.

(** The digits [0-9] and the lower-case letters [a-f]. *)
Definition is_hex_digit (x : N) : bool :=
  ((48 <=? x) && (x <=? 57) || (97 <=? x) && (x <=? 102))%N.
(* ===================================================================== *)
(** ** Step extraction ([extractSteps]) *)
(* ===================================================================== *)

(** A step of a test result with its nested steps ([step.steps], empty
    when absent). *)
Inductive TestStep : Type :=
| Step (title : string) (duration : float) (category : string) (steps : list TestStep).

Record StepData : Type := mkStepData {
  sd_title : string;
  sd_duration : float;
  sd_category : string;
  sd_isSlowest : bool           (* [isSlowest?: boolean]: absent or [true] *)
}.

(** [step.category === 'test.step' || step.category === 'pw:api']. *)
Definition meaningful (category : string) : bool :=
  String.eqb category "test.step" || String.eqb category "pw:api".

(** [processStep]: what one call pushes onto [steps], the step itself
    first when it is meaningful, then its nested steps in order. *)
Fixpoint processStep (step : TestStep) : list StepData :=
  match step with
  | Step title duration category nested =>
      (if meaningful category
       then [{| sd_title := title; sd_duration := duration;
                sd_category := category; sd_isSlowest := false |}]
       else [])
      ++ List.flat_map processStep nested
  end.

(** [Math.max(...values)]: minus infinity for no value, NaN when a value
    is NaN. *)
Definition Math_max_list (values : list float) : float :=
  foldl Math_max neg_infinity values.

(** [Array.prototype.findIndex]; [None] is -1. *)
Fixpoint findIndex {A : Type} (p : A → bool) (l : list A) : option nat :=
  match l with
  | [] => None
  | x :: rest => if p x then Some 0 else S <$> findIndex p rest
  end.

Definition mark_slowest (s : StepData) : StepData :=
  {| sd_title := sd_title s; sd_duration := sd_duration s;
     sd_category := sd_category s; sd_isSlowest := true |}.

(** [extractSteps] on [result.steps]. *)
Definition extractSteps (resultSteps : list TestStep) : list StepData :=
  let steps := List.flat_map processStep resultSteps in
  if (0 <? length steps)%nat then
    let maxDuration := Math_max_list (sd_duration <$> steps) in
    match findIndex (λ s, PrimFloat.eqb (sd_duration s) maxDuration) steps with
    | Some slowestIndex =>
        if (100 <? maxDuration)%float then alter mark_slowest slowestIndex steps
        else steps
    | None => steps
    end
  else steps.

(** Every step of a tree, the step itself first (depth-first order). *)
Fixpoint all_steps (step : TestStep) : list TestStep :=
  match step with
  | Step _ _ _ nested => step :: List.flat_map all_steps nested
  end.

Definition step_category (step : TestStep) : string :=
  match step with Step _ _ category _ => category end.

Definition step_fields (step : TestStep) : string * float * string :=
  match step with Step title duration category _ => (title, duration, category) end.

Definition data_fields (s : StepData) : string * float * string :=
  (sd_title s, sd_duration s, sd_category s).
(* ===================================================================== *)
(** ** Test cards, file groups and filters ([generateTestCard],
       [generateGroupedTests], the page's [filterTests]) *)
(* ===================================================================== *)

(** The text [onTestEnd] stores for an indicator: a coloured circle, a
    space and the word. *)
Definition indicator_label (i : FlakinessIndicator) : string :=
  match i with
  | IndStable => "🟢 Stable"
  | IndUnstable => "🟡 Unstable"
  | IndFlaky => "🔴 Flaky"
  | IndNew => "⚪ New"
  | IndSkipped => "⚪ Skipped"
  end.

(** [s.includes(word)]. *)
Definition includes (s word : string) : bool :=
  match String.index 0 word s with Some _ => true | None => false end.

Inductive BadgeClass : Set :=
| BadgeNew | BadgeStable | BadgeUnstable | BadgeFlaky | BadgeSkipped.

Inductive TrendClass : Set := TrendClassStable | TrendClassSlower | TrendClassFaster.

(** [startsWith] on the down arrow: only the "faster" label begins with it. *)
Definition starts_with_down (t : PerformanceTrend) : bool :=
  match t with TrendFaster _ => true | _ => false end.

(** The attributes and classes [generateTestCard] computes for a card.
    The details section reads the error, the steps and the attachments,
    which [TestResultData] does not carry here. *)
Record TestCard : Type := mkCard {
  card_id : list N;             (* [sanitizeId(test.testId)] *)
  card_status : Status;         (* [data-status] *)
  card_flaky : bool;            (* [data-flaky] *)
  card_unstable : bool;
  card_slow : bool;             (* [data-slow] *)
  card_badge : BadgeClass;
  card_trend : TrendClass
}.

Definition badge_class (indicator : option FlakinessIndicator) : BadgeClass :=
  match indicator with
  | None => BadgeNew
  | Some i =>
      let label := indicator_label i in
      if includes label "Stable" then BadgeStable
      else if includes label "Unstable" then BadgeUnstable
      else if includes label "Flaky" then BadgeFlaky
      else if includes label "Skipped" then BadgeSkipped
      else BadgeNew
  end.

Definition generateTestCard (test : TestResultData) : TestCard :=
  let isFlaky :=
    match flakinessScore test with
    | Some s => (0.3 <=? s)%float
    | None => false
    end in
  let isUnstable :=
    match flakinessScore test with
    | Some s => (0.1 <=? s)%float && (s <? 0.3)%float
    | None => false
    end in
  let isSlow := from_option starts_with_up false (performanceTrend test) in
  let isFaster := from_option starts_with_down false (performanceTrend test) in
  {| card_id := sanitizeId (units (testId test));
     card_status := status test;
     card_flaky := isFlaky;
     card_unstable := isUnstable;
     card_slow := isSlow;
     card_badge := badge_class (flakinessIndicator test);
     card_trend :=
       if isSlow then TrendClassSlower
       else if isFaster then TrendClassFaster
       else TrendClassStable |}.

(** [groups.get(file).push(test)] on a [Map], which keeps its keys in
    insertion order. *)
Fixpoint group_push (file : string) (test : TestResultData)
    (groups : list (string * list TestResultData))
    : list (string * list TestResultData) :=
  match groups with
  | [] => [(file, [test])]
  | (f, tests) :: rest =>
      if String.eqb f file then (f, tests ++ [test]) :: rest
      else (f, tests) :: group_push file test rest
  end.

Definition group_by_file (rs : list TestResultData)
    : list (string * list TestResultData) :=
  foldl (λ groups test, group_push (file test) test groups) [] rs.

(** One file group of the page: name, id, the two counts of the header
    and the tests whose cards it holds, in order. *)
Record FileGroup : Type := mkGroup {
  fg_file : string;
  fg_groupId : list N;
  fg_passed : nat;
  fg_failed : nat;
  fg_tests : list TestResultData
}.

Definition fg_cards (g : FileGroup) : list TestCard :=
  generateTestCard <$> fg_tests g.

Definition generateGroupedTests (r : SmartReporter) : list FileGroup :=
  (λ entry : string * list TestResultData,
     {| fg_file := entry.1;
        fg_groupId := sanitizeId (units entry.1);
        fg_passed := count_results (has_status Passed) entry.2;
        fg_failed := count_results failed_or_timedOut entry.2;
        fg_tests := entry.2 |})
  <$> group_by_file (results r).

(** Every card of the page, group after group. *)
Definition page_cards (r : SmartReporter) : list TestCard :=
  mjoin (fg_cards <$> generateGroupedTests r).

(** The filters of the page's buttons and what [filterTests] shows. *)
Inductive Filter : Set :=
| FilterAll | FilterPassed | FilterFailed | FilterSkipped | FilterFlaky | FilterSlow.

Definition filter_shows (f : Filter) (card : TestCard) : bool :=
  match f with
  | FilterAll => true
  | FilterPassed => bool_decide (card_status card = Passed)
  | FilterFailed =>
      bool_decide (card_status card = Failed) || bool_decide (card_status card = TimedOut)
  | FilterSkipped => bool_decide (card_status card = Skipped)
  | FilterFlaky => card_flaky card
  | FilterSlow => card_slow card
  end.

(** The count printed on a filter's button. *)
Definition button_count (html : HtmlReport) (f : Filter) : nat :=
  match f with
  | FilterAll => html_total html
  | FilterPassed => html_passed html
  | FilterFailed => html_failed html
  | FilterSkipped => html_skipped html
  | FilterFlaky => html_flaky html
  | FilterSlow => html_slow html
  end.

(* ===================================================================== *)
(** ** Webhook notifications ([sendWebhookNotifications]) *)
(* ===================================================================== *)

(** The figures of the summary line. *)
Record WebhookSummary : Type := mkWebhookSummary {
  ws_failed : nat;
  ws_total : nat;
  ws_passed : nat
}.

(** A request body: the summary and the titles of the failed tests, one
    bullet line each. *)
Inductive WebhookPost : Type :=
| SlackPost (url : string) (summary : WebhookSummary) (failedTests : list string)
| TeamsPost (url : string) (summary : WebhookSummary) (failedTests : list string).

(** What is logged for a request: sent, or the error of a rejected
    [fetch], which is caught. *)
Inductive WebhookLog : Type :=
| NotificationSent (post : WebhookPost)
| NotificationFailed (post : WebhookPost).

Definition log_post (l : WebhookLog) : WebhookPost :=
  match l with NotificationSent p | NotificationFailed p => p end.

Definition post_titles (p : WebhookPost) : list string :=
  match p with SlackPost _ _ ts | TeamsPost _ _ ts => ts end.

Definition post_summary (p : WebhookPost) : WebhookSummary :=
  match p with SlackPost _ s _ | TeamsPost _ s _ => s end.

(** [if (this.options.slackWebhook)]: absent and empty are falsy. *)
Definition configured (webhook : option string) : option string :=
  match webhook with
  | Some url => if String.eqb url "" then None else Some url
  | None => None
  end.

Definition attempt (fetch : WebhookPost → bool) (post : WebhookPost) : WebhookLog :=
  if fetch post then NotificationSent post else NotificationFailed post.

(** [sendWebhookNotifications]; [fetch] tells whether a request resolves. *)
Definition sendWebhookNotifications (r : SmartReporter) (fetch : WebhookPost → bool)
    : list WebhookLog :=
  let failed := count_results failed_or_timedOut (results r) in
  let passed := count_results (has_status Passed) (results r) in
  let total := length (results r) in
  if (failed =? 0)%nat then []
  else
    let summary := {| ws_failed := failed; ws_total := total; ws_passed := passed |} in
    let failedTests := title <$> take 5 (List.filter failed_or_timedOut (results r)) in
    match configured (slackWebhook (options r)) with
    | Some url => [attempt fetch (SlackPost url summary failedTests)]
    | None => []
    end
    ++ match configured (teamsWebhook (options r)) with
       | Some url => [attempt fetch (TeamsPost url summary failedTests)]
       | None => []
       end.

(* ===================================================================== *)
(** ** Retry analysis ([RetryAnalyzer]) *)
(* ===================================================================== *)

Record RetryInfo : Type := mkRetryInfo {
  totalRetries : Z;
  passedOnRetry : Z;
  failedRetries : Z;
  retryPattern : list bool;
  needsAttention : bool
}.

(** [calculateRetryInfo]. The type of the history entries is declared in
    a module that is not among the sources; [retry_of] reads an entry's
    [retry] ([None] when absent). *)
Definition calculateRetryInfo {E : Type} (retry_of : E → option Z)
    (retryFailureThreshold : Z) (test : TestResultData) (history : list E) : RetryInfo :=
  let totalRetries := retry test in
  let passed := bool_decide (status test = Passed) in
  let historyWithRetries :=
    List.filter (λ h, match retry_of h with
                      | Some n => negb (n =? 0)%Z && (0 <? n)%Z
                      | None => false
                      end) history in
  {| totalRetries := totalRetries;
     passedOnRetry := if passed && (0 <? totalRetries)%Z then totalRetries else (-1)%Z;
     failedRetries :=
       if bool_decide (status test = Failed) || bool_decide (status test = TimedOut)
       then totalRetries else 0%Z;
     retryPattern :=
       if (0 <? totalRetries)%Z
       then replicate (Z.to_nat totalRetries) false ++ [passed]
       else [passed];
     needsAttention :=
       (retryFailureThreshold <=? totalRetries)%Z
       || ((0 <? length history)%nat
           && (0.5 <? JS.float_of_nat (length historyWithRetries)
                      / JS.float_of_nat (length history))%float) |}.

(** The three texts of [getRetrySummary]. *)
Inductive RetrySummary : Type :=
| NoRetries
| PassedOnRetry (attempt attempts : Z)
| FailedAfter (attempts : Z).

(** [getRetrySummary] on [test.retryInfo] ([None] when not analysed). *)
Definition getRetrySummary (retryInfo : option RetryInfo) : RetrySummary :=
  match retryInfo with
  | None => NoRetries
  | Some info =>
      if (totalRetries info =? 0)%Z then NoRetries
      else if (0 <=? passedOnRetry info)%Z
      then PassedOnRetry (passedOnRetry info + 1) (totalRetries info + 1)
      else FailedAfter (totalRetries info + 1)
  end.
(** The tests a [Map] of groups holds for a file ([groups.get(file)]). *)
Fixpoint group_get (file : string) (groups : list (string * list TestResultData))
    : option (list TestResultData) :=
  match groups with
  | [] => None
  | (f, tests) :: rest => if String.eqb f file then Some tests else group_get file rest
  end.

(** The results of a file, in order. *)
Definition tests_of_file (file' : string) (rs : list TestResultData)
    : list TestResultData :=
  List.filter (λ t, String.eqb (file t) file') rs.
(** The badge that goes with an indicator. *)
Definition badge_of_indicator (i : FlakinessIndicator) : BadgeClass :=
  match i with
  | IndStable => BadgeStable
  | IndUnstable => BadgeUnstable
  | IndFlaky => BadgeFlaky
  | IndNew => BadgeNew
  | IndSkipped => BadgeSkipped
  end.

#[global] Instance BadgeClass_eq_dec : EqDecision BadgeClass.
Proof. solve_decision. Defined.
(** The entries one run adds for a test: one for each of its results. *)
Definition entries_added (timestamp id : string) (rs : list TestResultData)
    : list TestHistoryEntry :=
  entry_of timestamp <$> List.filter (λ t, String.eqb (testId t) id) rs.

(** A pass rate that is the whole number [k], at most half a point away
    from the exact percentage of [passed] among [passed + failed]. *)
Definition rate_within_half (passed failed : nat) (k : Z) : bool :=
  PrimFloat.eqb (pass_rate passed failed) (JS.float_of_Z k)
  && (0 <=? k)%Z && (k <=? 100)%Z
  && (Z.abs (2 * (k * Z.of_nat (passed + failed) - 100 * Z.of_nat passed))
      <=? Z.of_nat (passed + failed))%Z.

Definition rate_checked (passed failed : nat) : bool :=
  let floor := (100 * Z.of_nat passed / Z.of_nat (passed + failed))%Z in
  rate_within_half passed failed floor || rate_within_half passed failed (floor + 1).

(** What the argument loop may do to its state: the history files grow
    by arguments that do not begin with a dash, in order, and the output
    path is kept, cleared, or set to one of the arguments. *)
Definition parse_args_spec (args : list string) : Prop :=
  ∀ st, ∃ extra,
    cli_historyFiles (parse_args args st) = cli_historyFiles st ++ extra ∧
    extra `sublist_of` args ∧
    Forall (λ f, starts_with_dash f = false) extra ∧
    (cli_outputFile (parse_args args st) = cli_outputFile st ∨
     cli_outputFile (parse_args args st) = None ∨
     ∃ v, cli_outputFile (parse_args args st) = Some v ∧ v ∈ args).

(* ===================================================================== *)
(** * Properties *)
(* ===================================================================== *)

(** ** Number comparison *)

Lemma SFcompare_antisym (a b : spec_float) (c : comparison) :
  SFcompare a b = Some c → SFcompare b a = Some (CompOpp c).
Proof.
  destruct a as [[]|[]| |[] m1 e1], b as [[]|[]| |[] m2 e2]; simpl;
    intros H; inversion H; subst; clear H; try reflexivity.
  all: rewrite ?Pos.compare_cont_spec; simpl.
  all: destruct (Z.compare_spec e1 e2), (Z.compare_spec e2 e1); try lia; try reflexivity.
  all: subst; destruct (Pos.compare_spec m1 m2), (Pos.compare_spec m2 m1);
       simpl; try lia; try reflexivity.
Qed.

Lemma SFleb_not_ltb (a b : spec_float) : SFleb a b = true → SFltb b a = false.
Proof.
  unfold SFleb, SFltb. destruct (SFcompare a b) as [c|] eqn:E; [|discriminate].
  rewrite (SFcompare_antisym _ _ _ E). destruct c; simpl; congruence.
Qed.

Lemma SFltb_leb_trans (a b c : spec_float) :
  SFltb a b = true → SFleb b c = true → SFltb a c = true.
Proof.
  unfold SFleb, SFltb.
  destruct a as [[]|[]| |[] m1 e1], b as [[]|[]| |[] m2 e2], c as [[]|[]| |[] m3 e3];
    simpl; try discriminate; try reflexivity.
  all: rewrite ?Pos.compare_cont_spec; simpl.
  all: destruct (Z.compare_spec e1 e2), (Z.compare_spec e2 e3), (Z.compare_spec e1 e3);
       try discriminate; try reflexivity; try lia.
  all: subst; destruct (Pos.compare_spec m1 m2), (Pos.compare_spec m2 m3),
         (Pos.compare_spec m1 m3);
       simpl; try discriminate; try reflexivity; try lia.
Qed.

(** [a <= b] excludes [b < a]. *)
Lemma float_leb_not_ltb (a b : float) : (a <=? b)%float = true → (b <? a)%float = false.
Proof. rewrite FloatAxioms.leb_spec, FloatAxioms.ltb_spec. apply SFleb_not_ltb. Qed.

Lemma float_ltb_leb_trans (a b c : float) :
  (a <? b)%float = true → (b <=? c)%float = true → (a <? c)%float = true.
Proof. rewrite !FloatAxioms.ltb_spec, FloatAxioms.leb_spec. apply SFltb_leb_trans. Qed.

Lemma float_ltb_not_ltb (a b : float) : (a <? b)%float = true → (b <? a)%float = false.
Proof.
  rewrite !FloatAxioms.ltb_spec. unfold SFltb.
  destruct (SFcompare (Prim2SF a) (Prim2SF b)) as [c|] eqn:E; [|discriminate].
  rewrite (SFcompare_antisym _ _ _ E). destruct c; simpl; congruence.
Qed.

Example Math_round_samples :
  JS.Math_round 2.5 = 3%float ∧ JS.Math_round (-2.5) = (-2)%float ∧
  JS.Math_round 0.49999999999999994 = 0%float ∧
  JS.Math_round 69.99999999999999 = 70%float ∧
  JS.Math_round infinity = infinity ∧ JS.Math_round nan = nan.
Proof. vm_compute. repeat split. Qed.

(** ** Flakiness and performance *)

Lemma length_pos_ltb {A : Type} (l : list A) : l ≠ [] → (0 <? length l)%nat = true.
Proof. destruct l; [done|]. intros _. reflexivity. Qed.

Lemma filter_nonempty_source {A : Type} (p : A → bool) (l : list A) :
  List.filter p l ≠ [] → l ≠ [].
Proof. intros H ->. by apply H. Qed.

Lemma filter_all_skipped (h : list TestHistoryEntry) :
  Forall (λ e, he_skipped e = Some true) h → List.filter not_skipped h = [].
Proof.
  induction 1 as [|e h He _ IH]; [done|].
  simpl. unfold not_skipped at 1. rewrite He. simpl. exact IH.
Qed.

Lemma onTestEnd_results (r : SmartReporter) (ev : TestEvent) :
  results (onTestEnd r ev) = results r ++ [analyse r ev].
Proof. reflexivity. Qed.

(** The three bands cover every score that is a number, and exclude each
    other. *)
Lemma getFlakinessIndicator_bands (score : float) :
  ((score <? 0.1)%float = true → getFlakinessIndicator score = IndStable) ∧
  ((0.1 <=? score)%float = true → (score <? 0.3)%float = true →
     getFlakinessIndicator score = IndUnstable) ∧
  ((0.3 <=? score)%float = true → getFlakinessIndicator score = IndFlaky).
Proof.
  unfold getFlakinessIndicator. repeat split.
  - intros ->. reflexivity.
  - intros Hge Hlt. rewrite (float_leb_not_ltb _ _ Hge), Hlt. reflexivity.
  - intros Hge.
    assert (H13 : (0.1 <? score)%float = true).
    { apply (float_ltb_leb_trans _ 0.3%float); [reflexivity | exact Hge]. }
    rewrite (float_ltb_not_ltb _ _ H13), (float_leb_not_ltb _ _ Hge). reflexivity.
Qed.

(** On every history of at most 200 non-skipped entries the floating-point
    score falls in the same band as the exact fraction failures/total. *)
Lemma band_agrees_200 :
  forallb (λ total, forallb (λ failures, band_agrees failures total) (seq 0 (S total)))
          (seq 1 200) = true.
Proof. vm_compute. reflexivity. Qed.

Lemma flakiness_band_exact (failures total : nat) :
  1 ≤ total ≤ 200 → failures ≤ total →
  getFlakinessIndicator (score_of failures total) = exact_band failures total.
Proof.
  intros Ht Hf. pose proof band_agrees_200 as H.
  rewrite forallb_forall in H.
  specialize (H total). rewrite forallb_forall in H.
  assert (Hin : In total (seq 1 200)) by (apply in_seq; lia).
  specialize (H Hin failures).
  assert (Hin' : In failures (seq 0 (S total))) by (apply in_seq; lia).
  specialize (H Hin'). unfold band_agrees in H.
  by apply bool_decide_eq_true_1 in H.
Qed.

(** C2: for a test that is not skipped and has at least one non-skipped
    history entry, the score [onTestEnd] stores is the number of
    non-skipped entries that did not pass divided by the number of
    non-skipped entries, and the indicator is Stable below 0.1, Unstable
    from 0.1 and below 0.3, Flaky from 0.3 on; 0.29 is Unstable and 0.3
    is Flaky. Up to 200 non-skipped entries the band is also the one of
    the exact fraction. *)
Theorem flakiness_score_and_bands (r : SmartReporter) (ev : TestEvent) :
  ev_status ev ≠ Skipped →
  let relevant :=
    List.filter not_skipped (default [] (tests (history r) !! ev_testId ev)) in
  relevant ≠ [] →
  let failures := length (List.filter not_passed relevant) in
  let score := (JS.float_of_nat failures / JS.float_of_nat (length relevant))%float in
  ∃ td, results (onTestEnd r ev) = results r ++ [td] ∧
    flakinessScore td = Some score ∧
    ((score <? 0.1)%float = true → flakinessIndicator td = Some IndStable) ∧
    ((0.1 <=? score)%float = true → (score <? 0.3)%float = true →
       flakinessIndicator td = Some IndUnstable) ∧
    ((0.3 <=? score)%float = true → flakinessIndicator td = Some IndFlaky) ∧
    (length relevant ≤ 200 →
       flakinessIndicator td = Some (exact_band failures (length relevant))) ∧
    getFlakinessIndicator 0.29 = IndUnstable ∧
    getFlakinessIndicator 0.3 = IndFlaky.
Proof.
  intros Hstatus relevant Hne failures score.
  exists (analyse r ev). split; [apply onTestEnd_results|].
  unfold analyse. rewrite bool_decide_eq_false_2 by exact Hstatus.
  rewrite (length_pos_ltb _ (filter_nonempty_source _ _ Hne)).
  fold relevant. rewrite (length_pos_ltb _ Hne). fold failures score. simpl.
  destruct (getFlakinessIndicator_bands score) as (Hs & Hu & Hf).
  split; [reflexivity|].
  split; [intros H; f_equal; auto|].
  split; [intros H1 H2; f_equal; auto|].
  split; [intros H; f_equal; auto|].
  split; [|split; reflexivity].
  intros Hlen. f_equal. apply flakiness_band_exact.
  - destruct relevant; [done|]. simpl in *. lia.
  - apply List.filter_length_le.
Qed.

Lemma flakiness_score_and_bands_witness :
  let r := reporter_with default_options
             (history_of_tests
                {[ "a.spec.ts::t" :=
                     [sample_entry true 10 "2023-11-13T10:00:00.000Z";
                      skipped_entry "2023-11-13T11:00:00.000Z";
                      sample_entry false 14 "2023-11-13T12:00:00.000Z"] ]}) [] in
  let ev := sample_event "a.spec.ts::t" Passed 11 in
  ∃ td, results (onTestEnd r ev) = results r ++ [td] ∧
    flakinessScore td = Some (JS.float_of_nat 1 / JS.float_of_nat 2)%float ∧
    flakinessIndicator td = Some IndFlaky.
Proof.
  intros r ev.
  destruct (flakiness_score_and_bands r ev)
    as (td & Hres & Hscore & _ & _ & Hflaky & _).
  - discriminate.
  - vm_compute. discriminate.
  - exists td. split; [exact Hres|]. split; [exact Hscore|].
    apply Hflaky. vm_compute. reflexivity.
Defined.

(** C7: a skipped test gets the indicator Skipped whatever its history;
    a test that is not skipped and whose history is empty or holds only
    skipped entries gets the indicator New; in both cases no score is
    stored. *)
Theorem skipped_and_new_indicators (r : SmartReporter) (ev : TestEvent) :
  ∃ td, results (onTestEnd r ev) = results r ++ [td] ∧
    (ev_status ev = Skipped →
       flakinessIndicator td = Some IndSkipped ∧ flakinessScore td = None) ∧
    (ev_status ev ≠ Skipped →
       Forall (λ e, he_skipped e = Some true)
              (default [] (tests (history r) !! ev_testId ev)) →
       flakinessIndicator td = Some IndNew ∧ flakinessIndicator td ≠ Some IndStable ∧
       flakinessScore td = None).
Proof.
  exists (analyse r ev). split; [apply onTestEnd_results|]. split.
  - intros Hs. unfold analyse. rewrite bool_decide_eq_true_2 by exact Hs. done.
  - intros Hs Hall. unfold analyse. rewrite bool_decide_eq_false_2 by exact Hs.
    rewrite (filter_all_skipped _ Hall). simpl.
    destruct (0 <? length (default [] (tests (history r) !! ev_testId ev)))%nat; done.
Qed.

Lemma skipped_and_new_indicators_witness :
  let h := history_of_tests
             {[ "a.spec.ts::t" := [sample_entry false 10 "2023-11-13T10:00:00.000Z"];
                "a.spec.ts::u" := [skipped_entry "2023-11-13T10:00:00.000Z"] ]} in
  let r := reporter_with default_options h [] in
  (∃ td, results (onTestEnd r (sample_event "a.spec.ts::t" Skipped 0)) = [td] ∧
         flakinessIndicator td = Some IndSkipped) ∧
  (∃ td, results (onTestEnd r (sample_event "a.spec.ts::u" Passed 5)) = [td] ∧
         flakinessIndicator td = Some IndNew) ∧
  (∃ td, results (onTestEnd r (sample_event "a.spec.ts::fresh" Passed 5)) = [td] ∧
         flakinessIndicator td = Some IndNew).
Proof.
  intros h r. repeat split.
  - destruct (skipped_and_new_indicators r (sample_event "a.spec.ts::t" Skipped 0))
      as (td & Hres & Hskip & _).
    exists td. split; [exact Hres|]. by apply Hskip.
  - destruct (skipped_and_new_indicators r (sample_event "a.spec.ts::u" Passed 5))
      as (td & Hres & _ & Hnew).
    exists td. split; [exact Hres|]. apply Hnew; [discriminate|].
    vm_compute. repeat constructor.
  - destruct (skipped_and_new_indicators r (sample_event "a.spec.ts::fresh" Passed 5))
      as (td & Hres & _ & Hnew).
    exists td. split; [exact Hres|]. apply Hnew; [discriminate|].
    vm_compute. constructor.
Defined.

(** C4: with an average of exactly 0 the trend computation completes, but
    a positive current duration is labelled "Infinity% slower"; only a
    current duration of 0 (a NaN difference) gives the neutral label.
    [onTestEnd] reaches this with a history whose non-skipped entries
    all lasted 0 ms. *)
Theorem getPerformanceTrend_zero_average :
  getPerformanceTrend default_options 5 0 = TrendSlower infinity ∧
  getPerformanceTrend default_options 0 0 = TrendStable ∧
  let r := reporter_with default_options
             (history_of_tests
                {[ "a.spec.ts::t" := [sample_entry false 0 "2023-11-13T10:00:00.000Z"] ]})
             [] in
  ∃ td, results (onTestEnd r (sample_event "a.spec.ts::t" Passed 5)) = [td] ∧
        averageDuration td = Some 0%float ∧
        performanceTrend td = Some (TrendSlower infinity).
Proof.
  split; [vm_compute; reflexivity|]. split; [vm_compute; reflexivity|].
  intros r. eexists. split; [vm_compute; reflexivity|].
  split; reflexivity.
Qed.

(** ** Trend chart *)

(** C5: the trend chart is empty when the loaded document holds fewer
    than two summaries; otherwise it shows one data point per summary, in
    order, followed by one for the current run, in the status chart and
    in each of the three secondary charts. *)
Theorem trend_chart_points (r : SmartReporter) (now : Z) :
  let ss := default [] (summaries (history r)) in
  (length ss < 2 → generateTrendChart r now = None ∧
                   trend_points (generateTrendChart r now) = []) ∧
  (2 ≤ length ss →
     ∃ c, generateTrendChart r now = Some c ∧
          chart_bars c = summary_bar <$> ss ∧
          bar_label (chart_currentBar c) = LabelCurrent ∧
          length (chart_points c) = length ss + 1 ∧
          chart_runs c = length ss + 1 ∧
          length (chart_durationBars c ++ [chart_currentDurationBar c]) = length ss + 1 ∧
          length (chart_flakyBars c ++ [chart_currentFlakyBar c]) = length ss + 1 ∧
          length (chart_slowBars c ++ [chart_currentSlowBar c]) = length ss + 1).
Proof.
  intros ss. unfold generateTrendChart. fold ss. split.
  - intros Hlt. apply Nat.ltb_lt in Hlt. rewrite Hlt. done.
  - intros Hge. apply Nat.ltb_ge in Hge. rewrite Hge.
    eexists. split; [reflexivity|]. unfold chart_points. simpl.
    rewrite !length_app, !length_fmap. simpl. done.
Qed.

Lemma trend_chart_points_witness :
  let one := [sample_summary "run-1" "2023-11-12T10:00:00.000Z" 7 3] in
  let two := one ++ [sample_summary "run-2" "2023-11-13T10:00:00.000Z" 9 1] in
  let rs := [sample_result "a.spec.ts::t" Passed] in
  generateTrendChart (reporter_with default_options (history_of_summaries one) rs)
                     1700000005000 = None ∧
  ∃ c, generateTrendChart (reporter_with default_options (history_of_summaries two) rs)
                          1700000005000 = Some c ∧
       length (chart_points c) = 3.
Proof.
  intros one two rs. split.
  - apply (trend_chart_points
             (reporter_with default_options (history_of_summaries one) rs)).
    simpl. lia.
  - destruct (trend_chart_points
                (reporter_with default_options (history_of_summaries two) rs)
                1700000005000) as [_ H].
    destruct H as (c & Hc & _ & _ & Hlen & _); [simpl; lia|].
    exists c. split; [exact Hc | exact Hlen].
Defined.

(** ** Report statistics and run summary *)

Lemma count_failed_or_timedOut (rs : list TestResultData) :
  count_results failed_or_timedOut rs
  = count_results (has_status Failed) rs + count_results (has_status TimedOut) rs.
Proof.
  unfold count_results, failed_or_timedOut, has_status.
  induction rs as [|t rs IH]; [done|].
  simpl. destruct (status t); simpl; lia.
Qed.

Lemma count_results_pos (p : TestResultData → bool) (rs : list TestResultData) (t : TestResultData) :
  t ∈ rs → p t = true → 1 ≤ count_results p rs.
Proof.
  unfold count_results. induction 1 as [t rs|t u rs _ IH]; intros Hp; simpl.
  - rewrite Hp. simpl. lia.
  - destruct (p u); simpl; [|by apply IH]. lia.
Qed.

(** C10: the failed count of the HTML report counts the status [failed]
    only, the failed count of the run summary counts [failed] and
    [timedOut]; on the same results, with at least one timed-out test, the
    HTML count is the summary's count minus the number of timed-out tests
    and is strictly smaller; each pass rate is computed from its own
    failed count. *)
Theorem html_failed_excludes_timedOut (r : SmartReporter) (now nowTrend nowUpdate : Z) :
  (∃ t, t ∈ results r ∧ status t = TimedOut) →
  let html := generateHtml r now nowTrend in
  let summary := run_summary r nowUpdate in
  let timedOut := count_results (has_status TimedOut) (results r) in
  html_failed html = count_results (has_status Failed) (results r) ∧
  rs_failed summary = count_results failed_or_timedOut (results r) ∧
  html_failed html = rs_failed summary - timedOut ∧
  html_failed html < rs_failed summary ∧
  html_passRate html = pass_rate (html_passed html) (html_failed html) ∧
  rs_passRate summary = pass_rate (rs_passed summary) (rs_failed summary).
Proof.
  intros (t & Hin & Ht) html summary timedOut.
  assert (Hpos : 1 ≤ timedOut).
  { apply (count_results_pos _ _ t Hin). unfold has_status.
    by apply bool_decide_eq_true_2. }
  pose proof (count_failed_or_timedOut (results r)) as Hsum.
  fold timedOut in Hsum.
  unfold html, summary, generateHtml, run_summary. simpl.
  repeat split; lia.
Qed.

Lemma html_failed_excludes_timedOut_witness :
  let r := reporter_with default_options empty_history
             [sample_result "a.spec.ts::t" Passed; sample_result "a.spec.ts::u" Failed;
              sample_result "a.spec.ts::v" TimedOut] in
  html_failed (generateHtml r 1700000005000 1700000005001) = 1 ∧
  rs_failed (run_summary r 1700000005002) = 2 ∧
  html_passRate (generateHtml r 1700000005000 1700000005001) = 50%float ∧
  rs_passRate (run_summary r 1700000005002) = 33%float.
Proof.
  intros r.
  destruct (html_failed_excludes_timedOut r 1700000005000 1700000005001 1700000005002)
    as (H1 & H2 & _ & _ & _ & _).
  - exists (sample_result "a.spec.ts::v" TimedOut). split; [|reflexivity].
    unfold r. cbn [results reporter_with]. do 2 right. left.
  - split; [rewrite H1; reflexivity|]. split; [rewrite H2; reflexivity|].
    split; vm_compute; reflexivity.
Defined.

(** ** Loading the history file *)

Lemma getTestId_has_double_colon (file title : string) :
  has_double_colon (getTestId file title) = true.
Proof.
  unfold getTestId. induction file as [|c file IH]; [reflexivity|].
  change (String c file ++ "::" ++ title)%string
    with (String c (file ++ "::" ++ title)%string).
  destruct file as [|c' file'].
  - simpl. destruct (Ascii.eqb c ":"); reflexivity.
  - change (String c' file' ++ "::" ++ title)%string
      with (String c' (file' ++ "::" ++ title)%string) in *.
    cbn [has_double_colon]. cbn [has_double_colon] in IH.
    destruct (Ascii.eqb c ":" && Ascii.eqb c' ":"); [reflexivity|exact IH].
Qed.

Lemma getTestId_not_tests (file title : string) : getTestId file title ≠ "tests".
Proof.
  intros H. pose proof (getTestId_has_double_colon file title) as Hc.
  rewrite H in Hc. discriminate.
Qed.

Lemma legacy_mapping_no_tests_field (fields : list (string * json)) :
  legacy_mapping fields → assoc "tests" fields = None.
Proof.
  induction 1 as [|[k v] fields (file & title & Hk) _ IH]; [reflexivity|].
  cbn [assoc]. cbn [fst] in Hk.
  destruct (String.eqb_spec "tests" k) as [Heq|_]; [|exact IH].
  exfalso. apply (getTestId_not_tests file title). congruence.
Qed.

(** A document of the current shape is kept as it was parsed. *)
Lemma loadHistory_current_shape (current : json) (fields : list (string * json)) :
  json_truthy (assoc "tests" fields) = true →
  loadHistory current (FileExists (Normal (JObject fields))) = Normal (JObject fields).
Proof. intros H. simpl. rewrite H. reflexivity. Qed.

(** C6: loading never throws, whatever the file; a missing file leaves
    the empty document the reporter starts with, a file that cannot be
    read or parsed gives the empty document, and a legacy document, whose
    root is the tests mapping, becomes a document of the current shape
    with that mapping under [tests] and empty [runs] and [summaries]. *)
Theorem loadHistory_never_fails (current : json) (f : HistoryFile) :
  (∃ doc, loadHistory current f = Normal doc) ∧
  loadHistory empty_document FileMissing = Normal empty_document ∧
  loadHistory current (FileExists Throws) = Normal empty_document ∧
  loadHistory current (FileExists (Normal JNull)) = Normal empty_document ∧
  (∀ fields, legacy_mapping fields →
     loadHistory current (FileExists (Normal (JObject fields)))
     = Normal (JObject [("runs", JArray []); ("tests", JObject fields);
                        ("summaries", JArray [])])).
Proof.
  split.
  { destruct f as [|[loaded|]]; simpl; [by eexists| |by eexists].
    destruct (get_tests loaded) as [t|]; simpl; [|by eexists].
    destruct (json_truthy t); by eexists. }
  repeat split.
  intros fields Hlegacy. simpl.
  rewrite (legacy_mapping_no_tests_field _ Hlegacy). reflexivity.
Qed.

Lemma loadHistory_never_fails_witness :
  let entry := JObject [("passed", JBool true); ("duration", JNumber 12);
                        ("timestamp", JString "2023-11-13T10:00:00.000Z")] in
  let legacy := [(getTestId "a.spec.ts" "loads", JArray [entry])] in
  loadHistory empty_document (FileExists (Normal (JObject legacy)))
  = Normal (JObject [("runs", JArray []); ("tests", JObject legacy);
                     ("summaries", JArray [])]).
Proof.
  intros entry legacy.
  apply (loadHistory_never_fails empty_document FileMissing).
  constructor; [|constructor]. by exists "a.spec.ts", "loads".
Defined.

(** ** The merge command line tool *)

Lemma help_requested_iff (args : list string) :
  help_requested args = true ↔ "-h" ∈ args ∨ "--help" ∈ args.
Proof.
  unfold help_requested. rewrite orb_true_iff, !bool_decide_eq_true. done.
Qed.

Lemma main_usage (args : list string) :
  args = [] ∨ "-h" ∈ args ∨ "--help" ∈ args → main args = Exit 0 None.
Proof.
  intros H. unfold main.
  destruct H as [->|H]; [reflexivity|].
  apply help_requested_iff in H. rewrite H, orb_true_r. reflexivity.
Qed.

Lemma main_parsed (args : list string) :
  args ≠ [] → "-h" ∉ args → "--help" ∉ args →
  main args =
    let st := parse_args args initial_cli in
    if (length (cli_historyFiles st) =? 0)%nat then
      Exit 1 (Some "Error: No history files provided")
    else match output_given st with
         | None => Exit 1 (Some "Error: Output file not specified. Use -o <output.json>")
         | Some out => CallMerge (cli_historyFiles st) out (cli_maxRuns st)
         end.
Proof.
  intros Hne Hh Hhelp. unfold main.
  destruct args as [|a args]; [done|]. cbn [length Nat.eqb orb].
  destruct (help_requested (a :: args)) eqn:E; [|reflexivity].
  apply help_requested_iff in E. tauto.
Qed.

(** C8 as stated fails: without any argument there is no input file and
    no output path, and the exit code is 0. *)
Lemma main_no_arguments_exits_0 :
  cli_historyFiles (parse_args [] initial_cli) = [] ∧
  output_given (parse_args [] initial_cli) = None ∧
  ∀ merge_returns, exit_code merge_returns [] = 0%Z ∧ exit_code merge_returns [] ≠ 1%Z.
Proof. repeat split. discriminate. Qed.

(** C8 (amended): the exit code is 0 when the tool is run without
    arguments, when help is requested, and when the merge is called and
    returns; it is 1 when there is at least one argument, help is not
    requested, and the arguments give no history file or no non-empty
    output path. *)
Theorem merge_cli_exit_codes
    (merge_returns : list string → string → option Z → bool) (args : list string) :
  let st := parse_args args initial_cli in
  (args = [] ∨ "-h" ∈ args ∨ "--help" ∈ args → exit_code merge_returns args = 0%Z) ∧
  (args ≠ [] → "-h" ∉ args → "--help" ∉ args →
     cli_historyFiles st = [] ∨ output_given st = None →
     exit_code merge_returns args = 1%Z) ∧
  (args ≠ [] → "-h" ∉ args → "--help" ∉ args →
     ∀ out, cli_historyFiles st ≠ [] → output_given st = Some out →
       main args = CallMerge (cli_historyFiles st) out (cli_maxRuns st) ∧
       (merge_returns (cli_historyFiles st) out (cli_maxRuns st) = true →
          exit_code merge_returns args = 0%Z)).
Proof.
  intros st. split; [|split].
  - intros H. unfold exit_code. by rewrite (main_usage _ H).
  - intros Hne Hh Hhelp Hmissing. unfold exit_code.
    rewrite (main_parsed _ Hne Hh Hhelp). cbn zeta. fold st.
    destruct Hmissing as [Hfiles|Hout].
    + rewrite Hfiles. reflexivity.
    + rewrite Hout. by destruct (length (cli_historyFiles st) =? 0)%nat.
  - intros Hne Hh Hhelp out Hfiles Hout. unfold exit_code.
    rewrite (main_parsed _ Hne Hh Hhelp). cbn zeta. fold st.
    rewrite Hout. destruct (cli_historyFiles st) as [|x l] eqn:E; [done|].
    cbn [length Nat.eqb]. split; [reflexivity|]. by intros ->.
Qed.

Lemma merge_cli_exit_codes_witness :
  exit_code (λ _ _ _, true) ["--help"] = 0%Z ∧
  exit_code (λ _ _ _, true) ["-o"; "merged.json"] = 1%Z ∧
  exit_code (λ _ _ _, true) ["shard1.json"; "shard2.json"; "-o"] = 1%Z ∧
  main ["shard1.json"; "-n"; "5"; "shard2.json"; "-o"; "merged.json"]
  = CallMerge ["shard1.json"; "shard2.json"] "merged.json" (Some 5%Z) ∧
  exit_code (λ _ _ _, true)
    ["shard1.json"; "-n"; "5"; "shard2.json"; "-o"; "merged.json"] = 0%Z.
Proof.
  split; [|split; [|split; [|split]]].
  - apply (merge_cli_exit_codes (λ _ _ _, true) ["--help"]). compute_done.
  - apply (merge_cli_exit_codes (λ _ _ _, true) ["-o"; "merged.json"]);
      [done | compute_done | compute_done | by left].
  - apply (merge_cli_exit_codes (λ _ _ _, true) ["shard1.json"; "shard2.json"; "-o"]);
      [done | compute_done | compute_done | by right].
  - apply (merge_cli_exit_codes (λ _ _ _, true)
             ["shard1.json"; "-n"; "5"; "shard2.json"; "-o"; "merged.json"]);
      [done | compute_done | compute_done | done | reflexivity].
  - apply (merge_cli_exit_codes (λ _ _ _, true)
             ["shard1.json"; "-n"; "5"; "shard2.json"; "-o"; "merged.json"]
           ) with (out := "merged.json"); [done | compute_done | compute_done | done | reflexivity | reflexivity].
Defined.

(** ** History retention *)

Section Retention.

Variable maxRuns : Z.

Lemma trim_to_last_bounded_id {A : Type} (l : list A) :
  (Z.of_nat (length l) ≤ maxRuns)%Z → trim_to_last maxRuns l = l.
Proof.
  intros H. unfold trim_to_last.
  destruct (Z.ltb_spec maxRuns (Z.of_nat (length l))); [lia|reflexivity].
Qed.

Hypothesis maxRuns_pos : (1 ≤ maxRuns)%Z.

(** With a cap of at least one, trimming keeps the most recent entries. *)
Lemma trim_to_last_last_n {A : Type} (l : list A) :
  trim_to_last maxRuns l = last_n (Z.to_nat maxRuns) l.
Proof.
  unfold trim_to_last, last_n, JS.slice_from.
  destruct (Z.ltb_spec maxRuns (Z.of_nat (length l))) as [Hlt|Hge].
  - destruct (Z.ltb_spec (- maxRuns) 0) as [_|]; [|lia].
    f_equal. lia.
  - replace (length l - Z.to_nat maxRuns) with 0 by lia. reflexivity.
Qed.

Lemma trim_to_last_length {A : Type} (l : list A) :
  (Z.of_nat (length (trim_to_last maxRuns l)) ≤ maxRuns)%Z.
Proof. rewrite trim_to_last_last_n. unfold last_n. rewrite length_drop. lia. Qed.

Lemma record_result_bounded (stamp : string) (ts : gmap string (list TestHistoryEntry))
    (t : TestResultData) (id : string) :
  bounded_at maxRuns ts id ∨ testId t = id →
  bounded_at maxRuns (record_result maxRuns stamp ts t) id.
Proof.
  intros H l. unfold record_result.
  destruct (decide (testId t = id)) as [->|Hne].
  - rewrite lookup_insert_eq. intros [= <-]. apply trim_to_last_length.
  - rewrite lookup_insert_ne by exact Hne. destruct H as [H|H]; [apply H|done].
Qed.

Lemma foldl_record_result_bounded (stamp : string) (rs : list TestResultData)
    (ts : gmap string (list TestHistoryEntry)) (id : string) :
  bounded_at maxRuns ts id ∨ (∃ t, t ∈ rs ∧ testId t = id) →
  bounded_at maxRuns (foldl (record_result maxRuns stamp) ts rs) id.
Proof.
  revert ts. induction rs as [|t rs IH]; intros ts H.
  - destruct H as [H|(t & Ht & _)]; [exact H|]. by apply elem_of_nil in Ht.
  - cbn [foldl]. apply IH.
    destruct H as [H|(u & Hu & Hid)].
    + left. apply record_result_bounded. by left.
    + apply elem_of_cons in Hu as [->|Hu].
      * left. apply record_result_bounded. by right.
      * right. by exists u.
Qed.

End Retention.

Lemma record_result_other (maxRuns : Z) (stamp : string)
    (ts : gmap string (list TestHistoryEntry)) (t : TestResultData) (id : string) :
  testId t ≠ id → record_result maxRuns stamp ts t !! id = ts !! id.
Proof. intros Hne. unfold record_result. by rewrite lookup_insert_ne. Qed.

Lemma foldl_record_result_other (maxRuns : Z) (stamp : string) (rs : list TestResultData)
    (ts : gmap string (list TestHistoryEntry)) (id : string) :
  (∀ t, t ∈ rs → testId t ≠ id) →
  foldl (record_result maxRuns stamp) ts rs !! id = ts !! id.
Proof.
  revert ts. induction rs as [|t rs IH]; intros ts H; [reflexivity|].
  cbn [foldl]. rewrite IH.
  - apply record_result_other, H. by left.
  - intros u Hu. apply H. by right.
Qed.

Lemma updateHistory_tests (r : SmartReporter) (stamp : string) (now : Z) :
  tests (history (updateHistory r stamp now))
  = foldl (record_result (maxHistoryRuns (options r)) stamp) (tests (history r)) (results r).
Proof. reflexivity. Qed.

Lemma updateHistory_summaries (r : SmartReporter) (stamp : string) (now : Z) :
  summaries (history (updateHistory r stamp now))
  = Some (trim_to_last (maxHistoryRuns (options r))
            (default [] (summaries (history r)) ++ [run_summary r now])).
Proof. reflexivity. Qed.

(** C9: recording a run leaves the sequence of every test that is not
    among the current results exactly as it was. *)
Theorem updateHistory_frame (r : SmartReporter) (timestamp : string) (now : Z)
    (id : string) :
  (∀ t, t ∈ results r → testId t ≠ id) →
  tests (history (updateHistory r timestamp now)) !! id = tests (history r) !! id.
Proof.
  intros H. rewrite updateHistory_tests. by apply foldl_record_result_other.
Qed.

Lemma updateHistory_frame_witness :
  let h := history_of_tests {[ "a.spec.ts::old" := three_entries ]} in
  let r := reporter_with (options_with_max 2) h [sample_result "a.spec.ts::new" Passed] in
  tests (history (updateHistory r "2023-11-14T22:13:25.000Z" 1700000005000))
    !! "a.spec.ts::old" = Some three_entries.
Proof.
  intros h r.
  rewrite (updateHistory_frame r "2023-11-14T22:13:25.000Z" 1700000005000 "a.spec.ts::old").
  - reflexivity.
  - intros t Ht. apply list_elem_of_singleton in Ht as ->. discriminate.
Defined.

Section RecordRuns.

Variable o : SmartReporterOptions.
Hypothesis cap_pos : (1 ≤ maxHistoryRuns o)%Z.

Lemma record_run_bounded_at (h : TestHistory) (run : RunInput) (id : string) :
  bounded_at (maxHistoryRuns o) (tests h) id ∨ (∃ t, t ∈ in_results run ∧ testId t = id) →
  bounded_at (maxHistoryRuns o) (tests (record_run o h run)) id.
Proof.
  intros H. unfold record_run. rewrite updateHistory_tests.
  by apply foldl_record_result_bounded.
Qed.

Lemma record_run_summaries_bounded (h : TestHistory) (run : RunInput) :
  summaries_bounded (maxHistoryRuns o) (record_run o h run).
Proof.
  intros l. unfold record_run. rewrite updateHistory_summaries.
  intros [= <-]. by apply trim_to_last_length.
Qed.

Lemma record_runs_bounded_at (rs : list RunInput) (h : TestHistory) (id : string) :
  bounded_at (maxHistoryRuns o) (tests h) id ∨ recorded_in id rs →
  bounded_at (maxHistoryRuns o) (tests (record_runs o h rs)) id.
Proof.
  unfold record_runs. revert h. induction rs as [|run rs IH]; intros h H.
  - destruct H as [H|(run & t & Hrun & _)]; [exact H|]. by apply elem_of_nil in Hrun.
  - cbn [foldl]. apply IH.
    destruct H as [H|(run' & t & Hrun & Ht & Hid)].
    + left. apply record_run_bounded_at. by left.
    + apply elem_of_cons in Hrun as [->|Hrun].
      * left. apply record_run_bounded_at. right. by exists t.
      * right. by exists run', t.
Qed.

Lemma record_runs_summaries_bounded (rs : list RunInput) (h : TestHistory) :
  summaries_bounded (maxHistoryRuns o) h ∨ rs ≠ [] →
  summaries_bounded (maxHistoryRuns o) (record_runs o h rs).
Proof.
  unfold record_runs. revert h. induction rs as [|run rs IH]; intros h H.
  - by destruct H.
  - cbn [foldl]. apply IH. left. apply record_run_summaries_bounded.
Qed.

End RecordRuns.

(** *** What a run adds *)

Lemma last_n_length_min {A : Type} (n : nat) (l : list A) :
  length (last_n n l) = Nat.min n (length l).
Proof. unfold last_n. rewrite length_drop. lia. Qed.

(** Trimming after every push is trimming once at the end. *)
Lemma last_n_app_last_n {A : Type} (n : nat) (l l' : list A) :
  last_n n (last_n n l ++ l') = last_n n (l ++ l').
Proof.
  unfold last_n. rewrite !length_app, length_drop.
  destruct (decide (length l ≤ n)) as [Hle|Hgt].
  - replace (length l - n) with 0 by lia. cbn [drop].
    by replace (length l - 0) with (length l) by lia.
  - replace (length l - (length l - n) + length l' - n) with (length l') by lia.
    replace (length l + length l' - n) with (length l - n + length l') by lia.
    rewrite <- drop_drop. f_equal.
    rewrite drop_app. replace (length l - n - length l) with 0 by lia.
    reflexivity.
Qed.

Lemma entries_added_cons (stamp id : string) (t : TestResultData)
    (rs : list TestResultData) :
  entries_added stamp id (t :: rs)
  = (if String.eqb (testId t) id then [entry_of stamp t] else [])
    ++ entries_added stamp id rs.
Proof. unfold entries_added. cbn. by destruct (String.eqb (testId t) id). Qed.

Lemma foldl_record_result_entries (cap : Z) (stamp id : string)
    (rs : list TestResultData) (ts : gmap string (list TestHistoryEntry)) :
  (1 ≤ cap)%Z →
  foldl (record_result cap stamp) ts rs !! id
  = if decide (entries_added stamp id rs = []) then ts !! id
    else Some (last_n (Z.to_nat cap)
                 (default [] (ts !! id) ++ entries_added stamp id rs)).
Proof.
  intros Hcap. revert ts. induction rs as [|t rs IH]; intros ts; [reflexivity|].
  cbn [foldl]. rewrite IH, entries_added_cons. unfold record_result.
  destruct (String.eqb_spec (testId t) id) as [Heq|Hne].
  - subst id. rewrite lookup_insert_eq. cbn [default app]. unfold id.
    rewrite (trim_to_last_last_n _ Hcap).
    destruct (decide (entries_added stamp (testId t) rs = [])) as [->|_].
    + by rewrite decide_False.
    + rewrite decide_False by done.
      by rewrite last_n_app_last_n, <- (assoc_L app).
  - rewrite lookup_insert_ne by done. reflexivity.
Qed.

Lemma entries_added_nonempty (stamp id : string) (rs : list TestResultData) :
  (∃ t, t ∈ rs ∧ testId t = id) → entries_added stamp id rs ≠ [].
Proof.
  intros (t & Ht & Hid). unfold entries_added. intros Hnil.
  apply fmap_nil_inv in Hnil.
  assert (Hin : t ∈ List.filter (λ t, String.eqb (testId t) id) rs).
  { apply list_elem_of_In, List.filter_In. split; [by apply list_elem_of_In|].
    rewrite Hid. apply String.eqb_refl. }
  rewrite Hnil in Hin. by apply elem_of_nil in Hin.
Qed.

(** A test that is in none of the runs keeps its sequence through all of
    them. *)
Lemma record_runs_other (o : SmartReporterOptions) (rs : list RunInput)
    (h : TestHistory) (id : string) :
  ¬ recorded_in id rs → tests (record_runs o h rs) !! id = tests h !! id.
Proof.
  unfold record_runs. revert h. induction rs as [|run rs IH]; intros h Hid; [done|].
  cbn [foldl]. rewrite IH.
  - unfold record_run. rewrite updateHistory_tests. apply foldl_record_result_other.
    intros t Ht Heq. apply Hid. exists run, t. split; [by left|done].
  - intros (run' & t & Hrun & Ht & Heq). apply Hid.
    exists run', t. split; [by right|done].
Qed.

(** C1 as stated fails: a document the reporter wrote under a cap of 3
    is over a later cap of 2, and a run that does not contain the test
    leaves all three entries in place. *)
Lemma untouched_test_stays_over_cap :
  let written := record_runs (options_with_max 3) empty_history
                   [sample_run ["a.spec.ts::old"] "2023-11-10T10:00:00.000Z";
                    sample_run ["a.spec.ts::old"] "2023-11-11T10:00:00.000Z";
                    sample_run ["a.spec.ts::old"] "2023-11-12T10:00:00.000Z"] in
  let after := record_runs (options_with_max 2) written
                 [sample_run ["a.spec.ts::new"] "2023-11-14T22:13:25.000Z"] in
  tests after !! "a.spec.ts::old" = tests written !! "a.spec.ts::old" ∧
  length <$> tests after !! "a.spec.ts::old" = Some 3 ∧
  ¬ history_bounded 2 after.
Proof.
  intros written after.
  assert (Hold : length <$> tests after !! "a.spec.ts::old" = Some 3) by reflexivity.
  split; [reflexivity|]. split; [exact Hold|].
  intros [Htests _].
  destruct (tests after !! "a.spec.ts::old") as [l|] eqn:E; [|discriminate].
  specialize (Htests _ _ E). injection Hold as Hlen. lia.
Qed.

(** With a cap of 0 the call [slice(-0)] keeps the whole array. *)
Example cap_zero_keeps_everything :
  trim_to_last 0 [1; 2; 3] = [1; 2; 3] ∧
  tests (record_runs (options_with_max 0) empty_history
           [sample_run ["a.spec.ts::t"] "2023-11-14T22:13:25.000Z"])
    !! "a.spec.ts::t"
  = Some [entry_of "2023-11-14T22:13:25.000Z" (sample_result "a.spec.ts::t" Passed)].
Proof. split; reflexivity. Qed.

(** C1 (amended): with a cap of at least one, a record operation gives
    every test among the current results one new entry per result it has
    in the run, in order, at the end of its sequence, and the run summary
    at the end of the summaries, and keeps the most recent
    [maxHistoryRuns] of each; every step of its loop appends one entry and
    trims; the sequence of a test that is not among the results is left as
    it is, not trimmed, and so is the sequence of a test that is in none
    of a series of runs. After any number of record operations the
    sequence of every test that was part of one of the runs is within the
    cap, after at least one operation the summaries are within the cap,
    and a document that was within the cap stays within it. *)
Theorem updateHistory_retention (o : SmartReporterOptions) (h : TestHistory)
    (rs : list RunInput) :
  (1 ≤ maxHistoryRuns o)%Z →
  let cap := Z.to_nat (maxHistoryRuns o) in
  (∀ run id, (∃ t, t ∈ in_results run ∧ testId t = id) →
     entries_added (in_timestamp run) id (in_results run) ≠ [] ∧
     tests (record_run o h run) !! id
     = Some (last_n cap (default [] (tests h !! id)
                         ++ entries_added (in_timestamp run) id (in_results run)))) ∧
  (∀ stamp ts t,
     record_result (maxHistoryRuns o) stamp ts t
     = <[ testId t := last_n cap (default [] (ts !! testId t) ++ [entry_of stamp t]) ]> ts) ∧
  (∀ run,
     summaries (record_run o h run)
     = Some (last_n cap (default [] (summaries h)
                         ++ [run_summary (reporter_of_run o h run) (in_now run)]))) ∧
  (∀ run id, (∀ t, t ∈ in_results run → testId t ≠ id) →
     tests (record_run o h run) !! id = tests h !! id) ∧
  (∀ id, ¬ recorded_in id rs → tests (record_runs o h rs) !! id = tests h !! id) ∧
  (∀ id, recorded_in id rs →
     bounded_at (maxHistoryRuns o) (tests (record_runs o h rs)) id) ∧
  (rs ≠ [] → summaries_bounded (maxHistoryRuns o) (record_runs o h rs)) ∧
  (history_bounded (maxHistoryRuns o) h →
     history_bounded (maxHistoryRuns o) (record_runs o h rs)).
Proof.
  intros Hcap cap. split; [|split; [|split; [|split; [|split; [|split; [|split]]]]]].
  - intros run id Hid. split; [by apply entries_added_nonempty|].
    unfold record_run. rewrite updateHistory_tests.
    cbn [options results history reporter_of_run].
    rewrite (foldl_record_result_entries _ _ _ _ _ Hcap).
    by rewrite decide_False by (by apply entries_added_nonempty).
  - intros stamp ts t. unfold record_result. by rewrite trim_to_last_last_n.
  - intros run. unfold record_run. rewrite updateHistory_summaries.
    by rewrite trim_to_last_last_n.
  - intros run id Hid. unfold record_run. rewrite updateHistory_tests.
    by apply foldl_record_result_other.
  - intros id Hid. by apply record_runs_other.
  - intros id Hid. apply record_runs_bounded_at; [exact Hcap|by right].
  - intros Hrs. apply record_runs_summaries_bounded; [exact Hcap|by right].
  - intros [Htests Hsummaries]. split.
    + intros id. apply record_runs_bounded_at; [exact Hcap|]. left. apply Htests.
    + apply record_runs_summaries_bounded; [exact Hcap|]. by left.
Qed.

Lemma updateHistory_retention_witness :
  let run1 := sample_run ["a.spec.ts::t"] "2023-11-14T22:13:25.000Z" in
  let run2 := sample_run ["a.spec.ts::t"; "a.spec.ts::u"] "2023-11-15T22:13:25.000Z" in
  let run3 := sample_run ["a.spec.ts::t"] "2023-11-16T22:13:25.000Z" in
  let after := record_runs (options_with_max 2) empty_history [run1; run2; run3] in
  history_bounded 2 after ∧
  tests after !! "a.spec.ts::t"
  = Some [entry_of "2023-11-15T22:13:25.000Z" (sample_result "a.spec.ts::t" Passed);
          entry_of "2023-11-16T22:13:25.000Z" (sample_result "a.spec.ts::t" Passed)] ∧
  tests (record_run (options_with_max 2) empty_history run2) !! "a.spec.ts::u"
  = Some [entry_of "2023-11-15T22:13:25.000Z" (sample_result "a.spec.ts::u" Passed)] ∧
  tests after !! "a.spec.ts::v" = None.
Proof.
  intros run1 run2 run3 after.
  assert (Hcap : (1 ≤ maxHistoryRuns (options_with_max 2))%Z) by (simpl; lia).
  destruct (updateHistory_retention (options_with_max 2) empty_history
              [run1; run2; run3] Hcap)
    as (Hadds & _ & _ & _ & Hframe & _ & _ & Hkeeps).
  split; [|split; [reflexivity|split]].
  - apply Hkeeps. split.
    + intros id l Hl. cbn [tests empty_history] in Hl.
      rewrite lookup_empty in Hl. discriminate.
    + intros l [= <-]. simpl. lia.
  - destruct (Hadds run2 "a.spec.ts::u") as [_ Hu].
    + exists (sample_result "a.spec.ts::u" Passed). split; [|reflexivity].
      right. by left.
    + rewrite Hu. reflexivity.
  - unfold after. rewrite (Hframe "a.spec.ts::v"); [reflexivity|].
    intros (run & t & Hrun & Ht & Hid).
    assert (Hids : ∀ run, run ∈ [run1; run2; run3] →
              ∀ t, t ∈ in_results run → testId t ≠ "a.spec.ts::v").
    { intros run' Hrun'. repeat (apply elem_of_cons in Hrun' as [->|Hrun']);
        [| | |by apply elem_of_nil in Hrun'];
        intros t' Ht'; repeat (apply elem_of_cons in Ht' as [->|Ht']);
        try discriminate; by apply elem_of_nil in Ht'. }
    by apply (Hids run Hrun t Ht).
Defined.
(** ** Merging history documents *)

(** *** The order of timestamps *)

Lemma N_of_ascii_inj (a b : ascii) : N_of_ascii a = N_of_ascii b → a = b.
Proof.
  intros H. rewrite <- (ascii_N_embedding a), <- (ascii_N_embedding b). by rewrite H.
Qed.

Lemma string_compare_lt_trans (a b c : string) :
  String.compare a b = Lt → String.compare b c = Lt → String.compare a c = Lt.
Proof.
  revert b c. induction a as [|x a IH]; intros [|y b] [|z c]; simpl; try done.
  unfold Ascii.compare.
  destruct (N.compare_spec (N_of_ascii x) (N_of_ascii y)) as [Hxy|Hxy|Hxy];
    destruct (N.compare_spec (N_of_ascii y) (N_of_ascii z)) as [Hyz|Hyz|Hyz];
    destruct (N.compare_spec (N_of_ascii x) (N_of_ascii z)) as [Hxz|Hxz|Hxz];
    try done; try lia.
  apply IH.
Qed.

Lemma string_leb_trans (a b c : string) :
  String.leb a b = true → String.leb b c = true → String.leb a c = true.
Proof.
  unfold String.leb. intros Hab Hbc.
  destruct (String.compare a b) eqn:Eab; [| |discriminate].
  - apply String.compare_eq_iff in Eab as ->. exact Hbc.
  - destruct (String.compare b c) eqn:Ebc; [| |discriminate].
    + apply String.compare_eq_iff in Ebc as <-. by rewrite Eab.
    + by rewrite (string_compare_lt_trans _ _ _ Eab Ebc).
Qed.

Lemma string_ltb_false_leb (a b : string) :
  String.ltb a b = false → String.leb b a = true.
Proof.
  unfold String.ltb, String.leb. rewrite (String.compare_antisym a b).
  by destruct (String.compare b a).
Qed.


Lemma string_ltb_leb (a b : string) : String.ltb a b = true → String.leb a b = true.
Proof. unfold String.ltb, String.leb. by destruct (String.compare a b). Qed.

Section SortByTimestamp.

Context {A : Type} (ts : A → string).

Lemma insert_by_timestamp_perm (x : A) (l : list A) :
  insert_by_timestamp ts x l ≡ₚ x :: l.
Proof.
  induction l as [|y l IH]; [done|]. simpl.
  destruct (String.ltb (ts x) (ts y)); [done|].
  rewrite IH. apply Permutation_swap.
Qed.

Lemma sort_by_timestamp_perm (l : list A) : sort_by_timestamp ts l ≡ₚ l.
Proof.
  unfold sort_by_timestamp.
  assert (H : ∀ acc, foldl (λ acc x, insert_by_timestamp ts x acc) acc l ≡ₚ acc ++ l).
  { induction l as [|x l IH]; intros acc; simpl.
    - by rewrite app_nil_r.
    - rewrite IH, insert_by_timestamp_perm. simpl. apply Permutation_middle. }
  apply (H []).
Qed.

Lemma insert_by_timestamp_sorted (x : A) (l : list A) :
  sorted_by ts l → sorted_by ts (insert_by_timestamp ts x l).
Proof.
  unfold sorted_by. induction 1 as [|y l Hl IH Hy]; simpl.
  - repeat constructor.
  - destruct (String.ltb (ts x) (ts y)) eqn:E.
    + constructor; [by constructor|].
      constructor; [by apply string_ltb_leb|].
      eapply Forall_impl; [exact Hy|]. intros z Hz.
      eapply string_leb_trans; [|exact Hz]. by apply string_ltb_leb.
    + constructor; [exact IH|].
      rewrite insert_by_timestamp_perm. constructor; [|exact Hy].
      by apply string_ltb_false_leb.
Qed.

Lemma sort_by_timestamp_sorted (l : list A) : sorted_by ts (sort_by_timestamp ts l).
Proof.
  unfold sort_by_timestamp.
  assert (H : ∀ acc, sorted_by ts acc →
                sorted_by ts (foldl (λ acc x, insert_by_timestamp ts x acc) acc l)).
  { induction l as [|x l IH]; intros acc Hacc; simpl; [done|].
    by apply IH, insert_by_timestamp_sorted. }
  apply H. constructor.
Qed.




Lemma NoDup_fmap_eq (l : list A) (x y : A) :
  NoDup (ts <$> l) → x ∈ l → y ∈ l → ts x = ts y → x = y.
Proof.
  induction l as [|z l IH]; simpl; intros Hnd Hx Hy Heq.
  - by apply elem_of_nil in Hx.
  - apply NoDup_cons in Hnd as [Hz Hnd].
    apply elem_of_cons in Hx as [->|Hx]; apply elem_of_cons in Hy as [->|Hy].
    + done.
    + exfalso. apply Hz. rewrite Heq. by apply list_elem_of_fmap_2.
    + exfalso. apply Hz. rewrite <- Heq. by apply list_elem_of_fmap_2.
    + by apply IH.
Qed.

(** Without ties the sorted sequence does not depend on the input order. *)
Lemma sort_by_timestamp_perm_eq (l1 l2 : list A) :
  NoDup (ts <$> l1) → l1 ≡ₚ l2 →
  sort_by_timestamp ts l1 = sort_by_timestamp ts l2.
Proof.
  intros Hnd Hperm.
  apply (StronglySorted_unique_strong (ts_le ts)).
  - intros x y Hx Hy Hxy Hyx.
    rewrite sort_by_timestamp_perm in Hx, Hy. rewrite <- Hperm in Hy.
    apply (NoDup_fmap_eq l1); [done..|]. by apply String.leb_antisym.
  - apply sort_by_timestamp_sorted.
  - apply sort_by_timestamp_sorted.
  - by rewrite !sort_by_timestamp_perm.
Qed.

End SortByTimestamp.

(** *** De-duplication by run id *)

Section Dedup.

Context {A : Type} (key : A → string).








End Dedup.

(** *** Truncation *)





(** *** Stability of the sort *)


Lemma filter_bool_sublist {A : Type} (p : A → bool) (l : list A) :
  List.filter p l `sublist_of` l.
Proof.
  induction l as [|x l IH]; simpl; [done|]. destruct (p x); by constructor.
Qed.

Section Stability.

Context {A : Type} (ts : A → string).









End Stability.

(** *** Keeping the first of equal elements *)

Section DedupFirst.

Context {A : Type} (same : A → A → bool).






Hypothesis same_refl : ∀ x, same x x = true.


Hypothesis same_eq : ∀ x y, same x y = true → x = y.



End DedupFirst.






(** *** The union of the tests *)




Lemma dedup_by_runId_sublist {A : Type} (key : A → string) (l : list A) :
  dedup_by_runId key l `sublist_of` l.
Proof.
  induction l as [|x l IH]; simpl; [done|]. constructor.
  etrans; [apply filter_bool_sublist|exact IH].
Qed.

(** *** Merge laws *)







(** Below the cap the tie shows in the order alone: both entries are
    kept, in the order of the inputs. *)
Example merge_order_of_ties_follows_inputs :
  let a := shard "run-a" "2023-11-13T10:00:00.000Z" true in
  let b := shard "run-b" "2023-11-13T10:00:00.000Z" false in
  tests (mergeHistories 10 [a; b]) !! "a.spec.ts::t"
  = Some [sample_entry true 10 "2023-11-13T10:00:00.000Z";
          sample_entry false 10 "2023-11-13T10:00:00.000Z"] ∧
  tests (mergeHistories 10 [b; a]) !! "a.spec.ts::t"
  = Some [sample_entry false 10 "2023-11-13T10:00:00.000Z";
          sample_entry true 10 "2023-11-13T10:00:00.000Z"].
Proof. split; reflexivity. Qed.


(** ** Text utilities *)

Lemma replace_unit_app (c : N) (rep l1 l2 : list N) :
  replace_unit c rep (l1 ++ l2) = replace_unit c rep l1 ++ replace_unit c rep l2.
Proof. apply List.flat_map_app. Qed.

Lemma escapeHtml_app (l1 l2 : list N) : escapeHtml (l1 ++ l2) = escapeHtml l1 ++ escapeHtml l2.
Proof. unfold escapeHtml. by rewrite !replace_unit_app. Qed.

Lemma escapeHtml_unit (x : N) : escapeHtml [x] = escape_unit x.
Proof.
  unfold escapeHtml, escape_unit, replace_unit. cbn [List.flat_map app].
  destruct (N.eqb_spec x 38) as [->|H38]; [reflexivity|].
  cbn [List.flat_map app].
  destruct (N.eqb_spec x 60) as [->|H60]; [reflexivity|].
  cbn [List.flat_map app].
  destruct (N.eqb_spec x 62) as [->|H62]; [reflexivity|].
  cbn [List.flat_map app].
  destruct (N.eqb_spec x 34) as [->|H34]; [reflexivity|].
  cbn [List.flat_map app].
  destruct (N.eqb_spec x 39) as [->|H39]; reflexivity.
Qed.

(** The five passes amount to one pass that rewrites each code unit. *)
Lemma escapeHtml_flat_map (str : list N) :
  escapeHtml str = List.flat_map escape_unit str.
Proof.
  induction str as [|x str IH]; [reflexivity|].
  change (x :: str) with ([x] ++ str).
  rewrite escapeHtml_app, escapeHtml_unit, IH. reflexivity.
Qed.

Lemma escape_unit_safe (x y : N) :
  y ∈ escape_unit x → y ≠ 60%N ∧ y ≠ 62%N ∧ y ≠ 34%N ∧ y ≠ 39%N.
Proof.
  unfold escape_unit.
  destruct (N.eqb_spec x 38); [|destruct (N.eqb_spec x 60);
    [|destruct (N.eqb_spec x 62); [|destruct (N.eqb_spec x 34);
      [|destruct (N.eqb_spec x 39)]]]].
  all: cbn; rewrite ?elem_of_cons, ?elem_of_nil; intros H.
  all: repeat (destruct H as [->|H]; [repeat split; discriminate|]); try done.
  destruct H as [->|[]]. done.
Qed.

(** X1: the result of [escapeHtml] contains no angle bracket and no single
    or double quote; a string without any of the five special characters
    is returned as it is. *)
Theorem escapeHtml_no_markup (str : list N) :
  (∀ y, y ∈ escapeHtml str → y ≠ 60%N ∧ y ≠ 62%N ∧ y ≠ 34%N ∧ y ≠ 39%N) ∧
  (forallb (λ x, negb (is_html_special x)) str = true → escapeHtml str = str).
Proof.
  rewrite escapeHtml_flat_map. split.
  - intros y Hy. apply list_elem_of_In, List.in_flat_map in Hy as (x & _ & Hy).
    apply (escape_unit_safe x). by apply list_elem_of_In.
  - induction str as [|x str IH]; [reflexivity|].
    cbn [forallb List.flat_map]. intros [Hx Hrest]%andb_true_iff.
    rewrite (IH Hrest). unfold is_html_special in Hx. unfold escape_unit.
    apply negb_true_iff in Hx.
    repeat (apply orb_false_iff in Hx as [Hx ?]).
    by repeat match goal with H : (_ =? _)%N = false |- _ => rewrite H; clear H end.
Qed.

Lemma escape_unit_prefix_free (x y : N) (l1 l2 : list N) :
  escape_unit x ++ l1 = escape_unit y ++ l2 → x = y ∧ l1 = l2.
Proof.
  unfold escape_unit.
  destruct (N.eqb_spec x 38) as [->|?]; [|destruct (N.eqb_spec x 60) as [->|?];
    [|destruct (N.eqb_spec x 62) as [->|?]; [|destruct (N.eqb_spec x 34) as [->|?];
      [|destruct (N.eqb_spec x 39) as [->|?]]]]].
  all: destruct (N.eqb_spec y 38) as [->|?]; [|destruct (N.eqb_spec y 60) as [->|?];
    [|destruct (N.eqb_spec y 62) as [->|?]; [|destruct (N.eqb_spec y 34) as [->|?];
      [|destruct (N.eqb_spec y 39) as [->|?]]]]].
  all: cbn; intros H; simplify_eq; done.
Qed.

(** X2: [escapeHtml] loses no information: two strings with the same
    escaped form are the same string. *)
Theorem escapeHtml_injective (s1 s2 : list N) :
  escapeHtml s1 = escapeHtml s2 → s1 = s2.
Proof.
  rewrite !escapeHtml_flat_map. revert s2.
  induction s1 as [|x s1 IH]; intros [|y s2]; cbn [List.flat_map]; intros H.
  - reflexivity.
  - exfalso. unfold escape_unit in H.
    destruct (y =? 38)%N, (y =? 60)%N, (y =? 62)%N, (y =? 34)%N, (y =? 39)%N;
      discriminate.
  - exfalso. unfold escape_unit in H.
    destruct (x =? 38)%N, (x =? 60)%N, (x =? 62)%N, (x =? 34)%N, (x =? 39)%N;
      discriminate.
  - apply escape_unit_prefix_free in H as [-> H]. by rewrite (IH _ H).
Qed.

Lemma escapeHtml_injective_witness :
  escapeHtml (units "a<b") = units "a&lt;b" ∧
  ∀ s, escapeHtml s = units "a&lt;b" → s = units "a<b".
Proof.
  split; [reflexivity|]. intros s H.
  apply escapeHtml_injective. rewrite H. reflexivity.
Defined.

Lemma sanitizeId_map (str : list N) :
  sanitizeId str = (λ x, if is_alphanumeric x then x else 95%N) <$> str.
Proof.
  unfold sanitizeId. induction str as [|x str IH]; [reflexivity|].
  cbn [List.flat_map fmap list_fmap]. rewrite IH. by destruct (is_alphanumeric x).
Qed.

(** X3: [sanitizeId] keeps the number of code units, yields only letters,
    digits and underscores, leaves a string of letters and digits as it
    is, and applying it twice is the same as applying it once. *)
Theorem sanitizeId_safe (str : list N) :
  length (sanitizeId str) = length str ∧
  (∀ y, y ∈ sanitizeId str → is_alphanumeric y = true ∨ y = 95%N) ∧
  (forallb is_alphanumeric str = true → sanitizeId str = str) ∧
  sanitizeId (sanitizeId str) = sanitizeId str.
Proof.
  rewrite !sanitizeId_map. split; [apply length_fmap|]. split; [|split].
  - intros y (x & -> & _)%list_elem_of_fmap.
    destruct (is_alphanumeric x) eqn:E; [by left|by right].
  - induction str as [|x str IH]; [reflexivity|].
    cbn [forallb]. intros [Hx Hrest]%andb_true_iff.
    rewrite fmap_cons, Hx. f_equal. by apply IH.
  - rewrite <- list_fmap_compose. apply list_fmap_ext. intros _ x _. cbn.
    by destruct (is_alphanumeric x) eqn:E; [rewrite E|].
Qed.

(** X4: [sanitizeFilename] leaves no slash, backslash, colon, angle
    bracket, double quote, bar, question mark or star. *)
Theorem sanitizeFilename_safe (str : list N) :
  ∀ y, y ∈ sanitizeFilename str → is_separator y = false ∧ is_reserved y = false.
Proof.
  unfold sanitizeFilename. intros y Hy.
  apply list_elem_of_In, List.in_flat_map in Hy as (x & Hx & Hy).
  apply List.in_flat_map in Hx as (z & _ & Hx).
  destruct (is_separator z) eqn:Ez.
  - assert (x = 95%N) as ->.
    { cbn in Hx. destruct Hx as [<-|[<-|[]]]; reflexivity. }
    cbn in Hy. destruct Hy as [<-|[]]. done.
  - destruct Hx as [<-|[]]. destruct (is_reserved z) eqn:Er.
    + cbn in Hy. destruct Hy as [<-|[]]. done.
    + destruct Hy as [<-|[]]. done.
Qed.

Lemma sanitizeFilename_safe_witness :
  sanitizeFilename (units "login/a:b?.png") = units "login__a__b_.png" ∧
  is_separator 95 = false ∧ is_reserved 95 = false.
Proof.
  split; [reflexivity|].
  apply (sanitizeFilename_safe (units "login/a:b?.png") 95%N).
  compute_done.
Defined.

(** X5: [truncate] returns a string that fits unchanged; a longer string
    is cut to [maxLength - 3] code units followed by three dots, which
    makes exactly [maxLength] code units when [maxLength] is at least 3;
    below 3 the result is the three dots alone, longer than the limit. *)
Theorem truncate_length (str : list N) (maxLength : Z) :
  ((Z.of_nat (length str) ≤ maxLength)%Z → truncate str maxLength = str) ∧
  ((maxLength < Z.of_nat (length str))%Z → (3 ≤ maxLength)%Z →
     truncate str maxLength = take (Z.to_nat (maxLength - 3)) str ++ units "..." ∧
     Z.of_nat (length (truncate str maxLength)) = maxLength) ∧
  ((maxLength < Z.of_nat (length str))%Z → (maxLength < 3)%Z →
     truncate str maxLength = units "...").
Proof.
  unfold truncate, substring_to. split; [|split].
  - intros H. destruct (Z.leb_spec (Z.of_nat (length str)) maxLength); [done|lia].
  - intros Hlong Hmax.
    destruct (Z.leb_spec (Z.of_nat (length str)) maxLength); [lia|].
    replace (Z.max 0 (Z.min (maxLength - 3) (Z.of_nat (length str))))
      with (maxLength - 3)%Z by lia.
    split; [reflexivity|]. rewrite length_app, length_take. cbn. lia.
  - intros Hlong Hmax.
    destruct (Z.leb_spec (Z.of_nat (length str)) maxLength); [lia|].
    replace (Z.max 0 (Z.min (maxLength - 3) (Z.of_nat (length str)))) with 0%Z by lia.
    reflexivity.
Qed.

Lemma truncate_length_witness :
  truncate (units "checkout flow") 20 = units "checkout flow" ∧
  truncate (units "checkout flow") 8 = units "check..." ∧
  truncate (units "checkout flow") 2 = units "...".
Proof.
  destruct (truncate_length (units "checkout flow") 20) as (H1 & _ & _).
  destruct (truncate_length (units "checkout flow") 8) as (_ & H2 & _).
  destruct (truncate_length (units "checkout flow") 2) as (_ & _ & H3).
  split; [apply H1; cbn; lia|]. split.
  - destruct H2 as [H2 _]; [cbn; lia|lia|]. rewrite H2. reflexivity.
  - apply H3; cbn; lia.
Defined.

Lemma ToInt32_range (z : Z) : (- 2 ^ 31 ≤ ToInt32 z < 2 ^ 31)%Z.
Proof.
  unfold ToInt32. pose proof (Z.mod_pos_bound z (2 ^ 32)) as H.
  destruct (Z.ltb_spec (z mod 2 ^ 32) (2 ^ 31)); lia.
Qed.

Lemma ToInt32_congruent (a b : Z) :
  (a mod 2 ^ 32 = b mod 2 ^ 32)%Z → ToInt32 a = ToInt32 b.
Proof. unfold ToInt32. by intros ->. Qed.

Lemma ToInt32_mod (z : Z) : (ToInt32 z mod 2 ^ 32 = z mod 2 ^ 32)%Z.
Proof.
  unfold ToInt32. destruct (Z.ltb_spec (z mod 2 ^ 32) (2 ^ 31)).
  - apply Z.mod_mod. lia.
  - rewrite Zdiv.Zminus_mod, Z.mod_same, Z.sub_0_r, !Z.mod_mod by lia. reflexivity.
Qed.

Lemma hash_step_horner (h : Z) (c : N) :
  hash_step (ToInt32 h) c = ToInt32 (31 * h + Z.of_N c).
Proof.
  unfold hash_step. apply ToInt32_congruent.
  rewrite Z.add_mod, Zdiv.Zminus_mod, ToInt32_mod by lia.
  rewrite (Z.mul_mod (ToInt32 h)), !ToInt32_mod by lia.
  rewrite <- Z.mul_mod, <- Zdiv.Zminus_mod, <- Z.add_mod by lia.
  f_equal. lia.
Qed.

Lemma hash_loop_horner (str : list N) : hash_loop str = ToInt32 (horner31 str).
Proof.
  unfold hash_loop, horner31.
  induction str as [|c str IH] using rev_ind; [reflexivity|].
  rewrite !foldl_app. cbn [foldl]. rewrite IH. apply hash_step_horner.
Qed.

Lemma hex_digit_range (d : Z) :
  (0 ≤ d < 16)%Z → hex_digit_value (hex_digit d) = d.
Proof.
  intros H. unfold hex_digit, hex_digit_value.
  destruct (Z.ltb_spec d 10).
  - destruct (N.ltb_spec (Z.to_N (48 + d)) 58); lia.
  - destruct (N.ltb_spec (Z.to_N (87 + d)) 58); lia.
Qed.

Lemma to_hex_value (k : nat) (n : Z) :
  (0 ≤ n < 16 ^ Z.of_nat (S k))%Z →
  hex_value (to_hex (S k) n) = n ∧ 1 ≤ length (to_hex (S k) n) ≤ S k.
Proof.
  revert n. induction k as [|k IH]; intros n Hn.
  - cbn [to_hex]. change (16 ^ Z.of_nat 1)%Z with 16%Z in Hn.
    destruct (Z.ltb_spec n 16) as [Hlt|Hge]; [|lia].
    unfold hex_value. cbn [foldl length]. rewrite hex_digit_range by lia. lia.
  - remember (S k) as d eqn:Hd. cbn [to_hex].
    destruct (Z.ltb_spec n 16) as [Hlt|Hge].
    + unfold hex_value. cbn [foldl length]. rewrite hex_digit_range by lia. lia.
    + assert (Hk : (0 ≤ n / 16 < 16 ^ Z.of_nat d)%Z).
      { rewrite Nat2Z.inj_succ, Z.pow_succ_r in Hn by lia.
        split; [apply Z.div_pos; lia|]. apply Z.div_lt_upper_bound; lia. }
      subst d. destruct (IH _ Hk) as [Hv Hl].
      unfold hex_value in *. rewrite foldl_app, length_app. cbn [foldl length].
      rewrite Hv, hex_digit_range by (apply Z.mod_pos_bound; lia).
      split; [|lia]. pose proof (Z.div_mod n 16). lia.
Qed.

Lemma hex_digit_is_hex (d : Z) :
  (0 ≤ d < 16)%Z → is_hex_digit (hex_digit d) = true.
Proof.
  intros H. unfold hex_digit, is_hex_digit.
  destruct (Z.ltb_spec d 10).
  - apply orb_true_iff. left. apply andb_true_iff. split; apply N.leb_le; lia.
  - apply orb_true_iff. right. apply andb_true_iff. split; apply N.leb_le; lia.
Qed.

Lemma to_hex_digits (k : nat) (n : Z) :
  (0 ≤ n)%Z → forallb is_hex_digit (to_hex k n) = true.
Proof.
  revert n. induction k as [|k IH]; intros n Hn; [reflexivity|].
  cbn [to_hex]. destruct (Z.ltb_spec n 16) as [Hlt|Hge].
  - cbn [forallb]. rewrite hex_digit_is_hex by lia. reflexivity.
  - rewrite forallb_app, IH by (apply Z.div_pos; lia). cbn [forallb].
    rewrite hex_digit_is_hex by (apply Z.mod_pos_bound; lia). reflexivity.
Qed.

(** No leading zero: the first digit of a positive number is not 0. *)
Lemma to_hex_leading (k : nat) (n : Z) :
  (1 ≤ n < 16 ^ Z.of_nat (S k))%Z →
  ∃ d rest, to_hex (S k) n = d :: rest ∧ d ≠ 48%N.
Proof.
  revert n. induction k as [|k IH]; intros n Hn.
  - change (16 ^ Z.of_nat 1)%Z with 16%Z in Hn. cbn [to_hex].
    destruct (Z.ltb_spec n 16) as [Hlt|Hge]; [|lia].
    exists (hex_digit n), []. split; [done|].
    unfold hex_digit. destruct (Z.ltb_spec n 10); lia.
  - remember (S k) as d eqn:Hd. cbn [to_hex].
    destruct (Z.ltb_spec n 16) as [Hlt|Hge].
    + exists (hex_digit n), []. split; [done|].
      unfold hex_digit. destruct (Z.ltb_spec n 10); lia.
    + assert (Hk : (1 ≤ n / 16 < 16 ^ Z.of_nat d)%Z).
      { rewrite Nat2Z.inj_succ, Z.pow_succ_r in Hn by lia.
        split; [apply Z.div_le_lower_bound; lia|].
        apply Z.div_lt_upper_bound; lia. }
      subst d. destruct (IH _ Hk) as (x & rest & Hx & Hne).
      exists x, (rest ++ [hex_digit (n mod 16)%Z]). by rewrite Hx.
Qed.

(** X6: the loop of [hashString] computes the polynomial hash of the
    code units with multiplier 31, reduced to a signed 32-bit integer; the
    string returned is the absolute value of that hash in lower-case
    hexadecimal: one to eight code units, each a digit [0-9] or a letter
    [a-f], that denote that value, with a leading [0] only when the
    string is the single digit [0]. *)
Theorem hashString_polynomial (str : list N) :
  hash_loop str = ToInt32 (horner31 str) ∧
  forallb is_hex_digit (hashString str) = true ∧
  hex_value (hashString str) = Z.abs (ToInt32 (horner31 str)) ∧
  1 ≤ length (hashString str) ≤ 8 ∧
  (head (hashString str) = Some 48%N → hashString str = units "0").
Proof.
  split; [apply hash_loop_horner|]. unfold hashString.
  rewrite hash_loop_horner.
  pose proof (ToInt32_range (horner31 str)) as Hrange.
  assert (Hbound : (0 ≤ Z.abs (ToInt32 (horner31 str)) < 16 ^ Z.of_nat 8)%Z).
  { change (16 ^ Z.of_nat 8)%Z with 4294967296%Z. lia. }
  split; [apply to_hex_digits; lia|].
  destruct (to_hex_value 7 _ Hbound) as [Hvalue Hlength].
  split; [exact Hvalue|]. split; [exact Hlength|].
  destruct (decide (Z.abs (ToInt32 (horner31 str)) = 0%Z)) as [->|Hpos].
  - reflexivity.
  - destruct (to_hex_leading 7 (Z.abs (ToInt32 (horner31 str)))) as (d & rest & -> & Hd);
      [lia|].
    cbn [head]. intros [= ->]. done.
Qed.

Example hashString_of_abc :
  hashString (units "abc") = units "17862" ∧ horner31 (units "abc") = 96354%Z.
Proof. split; reflexivity. Qed.

(** ** Number order *)

Lemma SFcompare_None (a b : spec_float) :
  SFcompare a b = None → a = S754_nan ∨ b = S754_nan.
Proof. destruct a as [?|?| |? ? ?], b as [?|?| |? ? ?]; simpl; intros H; auto; discriminate. Qed.

Lemma SFcompare_refl (a : spec_float) : a ≠ S754_nan → SFcompare a a = Some Eq.
Proof.
  destruct a as [?|[]| |[] m e]; simpl; intros H; try done.
  all: rewrite Z.compare_refl, Pos.compare_cont_refl; reflexivity.
Qed.

Lemma SFleb_trans (a b c : spec_float) :
  SFleb a b = true → SFleb b c = true → SFleb a c = true.
Proof.
  unfold SFleb.
  destruct a as [[]|[]| |[] m1 e1], b as [[]|[]| |[] m2 e2], c as [[]|[]| |[] m3 e3];
    simpl; try discriminate; try reflexivity.
  all: rewrite ?Pos.compare_cont_spec; simpl.
  all: destruct (Z.compare_spec e1 e2), (Z.compare_spec e2 e3), (Z.compare_spec e1 e3);
       try discriminate; try reflexivity; try lia.
  all: subst; destruct (Pos.compare_spec m1 m2), (Pos.compare_spec m2 m3),
         (Pos.compare_spec m1 m3);
       simpl; try discriminate; try reflexivity; try lia.
Qed.

Lemma is_nan_false_compare (a : float) :
  PrimFloat.is_nan a = false ↔ SFcompare (Prim2SF a) (Prim2SF a) = Some Eq.
Proof.
  unfold PrimFloat.is_nan. rewrite negb_false_iff, FloatAxioms.eqb_spec. unfold SFeqb.
  destruct (SFcompare (Prim2SF a) (Prim2SF a)) as [[]|] eqn:E; done.
Qed.

Lemma is_nan_false_not_nan (a : float) :
  PrimFloat.is_nan a = false ↔ Prim2SF a ≠ S754_nan.
Proof.
  rewrite is_nan_false_compare. split.
  - intros H Hn. rewrite Hn in H. discriminate.
  - apply SFcompare_refl.
Qed.

Lemma float_leb_refl (a : float) : PrimFloat.is_nan a = false → (a <=? a)%float = true.
Proof.
  rewrite is_nan_false_compare, FloatAxioms.leb_spec. unfold SFleb. by intros ->.
Qed.

Lemma float_leb_trans (a b c : float) :
  (a <=? b)%float = true → (b <=? c)%float = true → (a <=? c)%float = true.
Proof. rewrite !FloatAxioms.leb_spec. apply SFleb_trans. Qed.

Lemma float_ltb_leb (a b : float) : (a <? b)%float = true → (a <=? b)%float = true.
Proof.
  rewrite FloatAxioms.ltb_spec, FloatAxioms.leb_spec. unfold SFltb, SFleb.
  by destruct (SFcompare (Prim2SF a) (Prim2SF b)) as [[]|].
Qed.

(** Two numbers of which neither is below the other compare equal. *)
Lemma float_not_ltb_leb (a b : float) :
  PrimFloat.is_nan a = false → PrimFloat.is_nan b = false →
  (a <? b)%float = false → (b <=? a)%float = true.
Proof.
  rewrite !is_nan_false_not_nan, FloatAxioms.ltb_spec, FloatAxioms.leb_spec.
  unfold SFltb, SFleb. intros Ha Hb.
  destruct (SFcompare (Prim2SF a) (Prim2SF b)) as [c|] eqn:E.
  - rewrite (SFcompare_antisym _ _ _ E). by destruct c.
  - by destruct (SFcompare_None _ _ E).
Qed.

Lemma float_eqb_leb (a b : float) :
  (a =? b)%float = true → (a <=? b)%float = true ∧ (b <=? a)%float = true.
Proof.
  rewrite FloatAxioms.eqb_spec, !FloatAxioms.leb_spec. unfold SFeqb, SFleb.
  destruct (SFcompare (Prim2SF a) (Prim2SF b)) as [[]|] eqn:E; try done.
  rewrite (SFcompare_antisym _ _ _ E). done.
Qed.

Lemma float_leb_is_nan (a b : float) :
  (a <=? b)%float = true → PrimFloat.is_nan a = false ∧ PrimFloat.is_nan b = false.
Proof.
  rewrite !is_nan_false_not_nan, FloatAxioms.leb_spec. unfold SFleb.
  intros H. split; intros Hn; rewrite Hn in H; simpl in H; [done|].
  by destruct (Prim2SF a).
Qed.

Lemma Math_max_is_nan (a b : float) :
  PrimFloat.is_nan (Math_max a b) = false →
  PrimFloat.is_nan a = false ∧ PrimFloat.is_nan b = false.
Proof.
  unfold Math_max.
  destruct (PrimFloat.is_nan a), (PrimFloat.is_nan b); simpl; try done.
Qed.

Lemma Math_max_upper (a b : float) :
  PrimFloat.is_nan a = false → PrimFloat.is_nan b = false →
  (a <=? Math_max a b)%float = true ∧ (b <=? Math_max a b)%float = true.
Proof.
  intros Ha Hb. unfold Math_max. rewrite Ha, Hb. simpl.
  destruct (a <? b)%float eqn:Eab.
  { split; [by apply float_ltb_leb|by apply float_leb_refl]. }
  destruct (b <? a)%float eqn:Eba.
  { split; [by apply float_leb_refl|by apply float_ltb_leb]. }
  destruct (get_sign a).
  - split; [by apply float_not_ltb_leb|by apply float_leb_refl].
  - split; [by apply float_leb_refl|by apply float_not_ltb_leb].
Qed.

Lemma foldl_Math_max_upper (l : list float) (acc : float) :
  PrimFloat.is_nan (foldl Math_max acc l) = false →
  (acc <=? foldl Math_max acc l)%float = true ∧
  ∀ x, x ∈ l → (x <=? foldl Math_max acc l)%float = true.
Proof.
  revert acc. induction l as [|y l IH]; intros acc Hn; cbn [foldl] in *.
  - split; [by apply float_leb_refl|]. intros x Hx. by apply elem_of_nil in Hx.
  - destruct (IH _ Hn) as [Hacc Hl].
    destruct (float_leb_is_nan _ _ Hacc) as [Hm _].
    destruct (Math_max_is_nan _ _ Hm) as [Ha Hy].
    destruct (Math_max_upper _ _ Ha Hy) as [H1 H2].
    split; [by eapply float_leb_trans|].
    intros x [->|Hx]%elem_of_cons; [by eapply float_leb_trans|by apply Hl].
Qed.

Lemma float_eqb_iff_leb (a b : float) :
  (a =? b)%float = true ↔ (a <=? b)%float = true ∧ (b <=? a)%float = true.
Proof.
  split; [apply float_eqb_leb|].
  rewrite FloatAxioms.eqb_spec, !FloatAxioms.leb_spec. unfold SFeqb, SFleb.
  destruct (SFcompare (Prim2SF a) (Prim2SF b)) as [c|] eqn:E; [|by intros []].
  rewrite (SFcompare_antisym _ _ _ E). destruct c; simpl; intros []; done.
Qed.

Lemma float_eqb_trans (a b c : float) :
  (a =? b)%float = true → (b =? c)%float = true → (a =? c)%float = true.
Proof.
  rewrite !float_eqb_iff_leb. intros [H1 H2] [H3 H4].
  split; eapply float_leb_trans; eauto.
Qed.

(** ** Step extraction *)

Lemma TestStep_nested_ind (P : TestStep → Prop) :
  (∀ title duration category nested,
     Forall P nested → P (Step title duration category nested)) →
  ∀ step, P step.
Proof.
  intros H. fix IH 1. intros [title duration category nested]. apply H.
  induction nested as [|s nested IHn]; constructor; [apply IH|exact IHn].
Qed.

Lemma processStep_fields (step : TestStep) :
  data_fields <$> processStep step
  = step_fields <$> List.filter (λ s, meaningful (step_category s)) (all_steps step).
Proof.
  induction step as [title duration category nested IH] using TestStep_nested_ind.
  cbn [processStep all_steps List.filter step_category].
  rewrite fmap_app.
  assert (Hnested :
    data_fields <$> List.flat_map processStep nested
    = step_fields <$> List.filter (λ s, meaningful (step_category s))
                        (List.flat_map all_steps nested)).
  { induction IH as [|s nested Hs _ IHn]; [reflexivity|].
    cbn [List.flat_map]. rewrite fmap_app, List.filter_app, fmap_app, Hs, IHn.
    reflexivity. }
  rewrite Hnested. by destruct (meaningful category).
Qed.

Lemma processStep_unflagged (step : TestStep) :
  Forall (λ s, sd_isSlowest s = false) (processStep step).
Proof.
  induction step as [title duration category nested IH] using TestStep_nested_ind.
  cbn [processStep]. apply Forall_app. split.
  - destruct (meaningful category); repeat constructor.
  - induction IH as [|s nested Hs _ IHn]; [constructor|].
    cbn [List.flat_map]. by apply Forall_app.
Qed.

Lemma flat_map_processStep_unflagged (roots : list TestStep) :
  Forall (λ s, sd_isSlowest s = false) (List.flat_map processStep roots).
Proof.
  induction roots as [|s roots IH]; [constructor|].
  cbn [List.flat_map]. apply Forall_app. split; [apply processStep_unflagged|exact IH].
Qed.

Lemma alter_mark_slowest_fields (i : nat) (l : list StepData) :
  data_fields <$> alter mark_slowest i l = data_fields <$> l.
Proof.
  revert i. induction l as [|s l IH]; intros [|i]; cbn; try done.
  by rewrite <- (IH i).
Qed.

(** X7: [extractSteps] returns, in depth-first order, exactly the steps of
    the tree whose category is [test.step] or [pw:api], at every depth and
    also below steps of another category, with the title, duration and
    category of each. *)
Theorem extractSteps_preorder (roots : list TestStep) :
  data_fields <$> extractSteps roots
  = step_fields <$> List.filter (λ s, meaningful (step_category s))
                      (List.flat_map all_steps roots).
Proof.
  assert (H : data_fields <$> List.flat_map processStep roots
              = step_fields <$> List.filter (λ s, meaningful (step_category s))
                                  (List.flat_map all_steps roots)).
  { induction roots as [|s roots IH]; [reflexivity|].
    cbn [List.flat_map].
    rewrite fmap_app, List.filter_app, fmap_app, processStep_fields, IH. reflexivity. }
  unfold extractSteps.
  destruct (0 <? length (List.flat_map processStep roots))%nat; [|exact H].
  destruct (findIndex _ _) as [k|]; [|exact H].
  destruct (100 <? _)%float; [|exact H].
  by rewrite alter_mark_slowest_fields.
Qed.

Lemma findIndex_Some {A : Type} (p : A → bool) (l : list A) (k : nat) :
  findIndex p l = Some k →
  (∃ x, l !! k = Some x ∧ p x = true) ∧
  (∀ j y, j < k → l !! j = Some y → p y = false).
Proof.
  revert k. induction l as [|x l IH]; intros k; cbn [findIndex]; [done|].
  destruct (p x) eqn:E.
  - intros [= <-]. split; [by exists x|]. intros j y Hj. lia.
  - destruct (findIndex p l) as [k'|]; [|done]. cbn. intros [= <-].
    destruct (IH k' eq_refl) as [Hk Hbefore]. split; [exact Hk|].
    intros [|j] y Hj; cbn; [by intros [= <-]|]. apply Hbefore. lia.
Qed.

Lemma alter_mark_slowest_flagged (l : list StepData) (k i : nat) (s : StepData) :
  Forall (λ s, sd_isSlowest s = false) l →
  alter mark_slowest k l !! i = Some s → sd_isSlowest s = true →
  i = k ∧ ∃ s0, l !! k = Some s0 ∧ s = mark_slowest s0.
Proof.
  intros Hl Hi Hs. destruct (decide (i = k)) as [->|Hne].
  - split; [reflexivity|]. rewrite list_lookup_alter_eq in Hi.
    destruct (l !! k) as [s0|]; [|done]. exists s0. by injection Hi as <-.
  - rewrite list_lookup_alter_ne in Hi by done.
    rewrite Forall_forall in Hl. rewrite (Hl s) in Hs; [done|].
    by eapply list_elem_of_lookup_2.
Qed.

Lemma alter_mark_slowest_count (l : list StepData) (k : nat) :
  Forall (λ s, sd_isSlowest s = false) l →
  length (List.filter sd_isSlowest (alter mark_slowest k l)) ≤ 1.
Proof.
  intros Hl. revert k. induction Hl as [|s l Hs Hl IH]; intros k.
  { destruct k; simpl; lia. }
  destruct k as [|k]; simpl.
  - assert (List.filter sd_isSlowest l = []) as ->; [|simpl; lia].
    clear IH. induction Hl as [|s' l Hs' _ IH]; [done|]. cbn. by rewrite Hs'.
  - rewrite Hs. apply IH.
Qed.

(** X8: [extractSteps] marks at most one step as slowest; a marked step
    lasted more than 100 ms, no step of the result lasted longer, and no
    earlier step lasted as long. *)
Theorem extractSteps_slowest (roots : list TestStep) :
  length (List.filter sd_isSlowest (extractSteps roots)) ≤ 1 ∧
  ∀ i s, extractSteps roots !! i = Some s → sd_isSlowest s = true →
    (100 <? sd_duration s)%float = true ∧
    (∀ s', s' ∈ extractSteps roots →
       (sd_duration s' <=? sd_duration s)%float = true) ∧
    (∀ j s', j < i → extractSteps roots !! j = Some s' →
       (sd_duration s' =? sd_duration s)%float = false).
Proof.
  pose proof (flat_map_processStep_unflagged roots) as Hun.
  unfold extractSteps. set (steps := List.flat_map processStep roots) in *.
  assert (Hnone : length (List.filter sd_isSlowest steps) ≤ 1 ∧
            ∀ i s, steps !! i = Some s → sd_isSlowest s = true →
              (100 <? sd_duration s)%float = true ∧
              (∀ s', s' ∈ steps → (sd_duration s' <=? sd_duration s)%float = true) ∧
              (∀ j s', j < i → steps !! j = Some s' →
                 (sd_duration s' =? sd_duration s)%float = false)).
  { split.
    - assert (List.filter sd_isSlowest steps = []) as ->; [|simpl; lia].
      induction Hun as [|s' l Hs' _ IH]; [done|]. cbn. by rewrite Hs'.
    - intros i s Hi Hs. rewrite Forall_forall in Hun.
      rewrite (Hun s) in Hs; [done|]. by eapply list_elem_of_lookup_2. }
  destruct (0 <? length steps)%nat; [|exact Hnone].
  set (maxDuration := Math_max_list (sd_duration <$> steps)).
  destruct (findIndex _ steps) as [k|] eqn:Efind; [|exact Hnone].
  destruct (100 <? maxDuration)%float eqn:Ebig; [|exact Hnone].
  clear Hnone. split; [by apply alter_mark_slowest_count|].
  intros i s Hi Hs.
  destruct (alter_mark_slowest_flagged _ _ _ _ Hun Hi Hs) as (-> & s0 & Hk & ->).
  destruct (findIndex_Some _ _ _ Efind) as [(x & Hx & Heq) Hbefore].
  rewrite Hk in Hx. injection Hx as <-. cbn [mark_slowest sd_duration].
  destruct (float_eqb_leb _ _ Heq) as [Hle Hge].
  destruct (float_leb_is_nan _ _ Hle) as [_ Hnan].
  destruct (foldl_Math_max_upper _ _ Hnan) as [_ Hupper].
  split; [by eapply float_ltb_leb_trans|]. split.
  - intros s' Hs'. apply (float_leb_trans _ maxDuration); [|exact Hge].
    apply Hupper. apply list_elem_of_fmap.
    apply list_elem_of_lookup in Hs' as [j Hj].
    destruct (decide (j = k)) as [->|Hne].
    + rewrite list_lookup_alter_eq, Hk in Hj. injection Hj as <-.
      exists s0. split; [reflexivity|]. by eapply list_elem_of_lookup_2.
    + rewrite list_lookup_alter_ne in Hj by done.
      exists s'. split; [reflexivity|]. by eapply list_elem_of_lookup_2.
  - intros j s' Hj Hs'. rewrite list_lookup_alter_ne in Hs' by lia.
    destruct (sd_duration s' =? sd_duration s0)%float eqn:E; [|reflexivity].
    rewrite <- (Hbefore j s' Hj Hs'). symmetry. by eapply float_eqb_trans.
Qed.

Lemma extractSteps_slowest_witness :
  let roots :=
    [Step "open page" 50 "test.step"
       [Step "page.goto" 150 "pw:api" [];
        Step "beforeEach" 500 "hook" [Step "page.click" 150 "pw:api" []]]] in
  sd_isSlowest <$> extractSteps roots = [false; true; false] ∧
  ∀ s', s' ∈ extractSteps roots → (sd_duration s' <=? 150)%float = true.
Proof.
  intros roots. split; [reflexivity|].
  destruct (extractSteps_slowest roots) as [_ H].
  destruct (H 1 (mkStepData "page.goto" 150 "pw:api" true) eq_refl eq_refl)
    as (_ & Hmax & _).
  exact Hmax.
Defined.

(** ** File groups, cards and filters *)

Lemma group_get_push (file f : string) (test : TestResultData)
    (groups : list (string * list TestResultData)) :
  group_get f (group_push file test groups)
  = if String.eqb file f then Some (default [] (group_get file groups) ++ [test])
    else group_get f groups.
Proof.
  induction groups as [|[g tests] groups IH]; cbn [group_push group_get].
  - by destruct (String.eqb_spec file f).
  - destruct (String.eqb_spec g file) as [Hgf|Hgf]; cbn [group_get].
    + subst g. by destruct (String.eqb_spec file f).
    + rewrite IH.
      destruct (String.eqb_spec g f) as [Hg|Hg], (String.eqb_spec file f) as [Hf|Hf];
        subst; done.
Qed.

Lemma group_push_keys (file : string) (test : TestResultData)
    (groups : list (string * list TestResultData)) :
  groups.*1 `sublist_of` (group_push file test groups).*1 ∧
  ∀ f, f ∈ (group_push file test groups).*1 → f = file ∨ f ∈ groups.*1.
Proof.
  induction groups as [|[g tests] groups [IH1 IH2]]; cbn [group_push fmap list_fmap fst].
  - split; [apply sublist_nil_l|]. intros f [->|[]%elem_of_nil]%elem_of_cons. by left.
  - destruct (String.eqb_spec g file) as [->|Hne]; cbn [fmap list_fmap fst].
    + split; [done|]. intros f Hf. by right.
    + split; [by constructor|].
      intros f [->|Hf]%elem_of_cons; [right; by left|].
      destruct (IH2 f Hf); [by left|right; by right].
Qed.

Lemma group_push_NoDup (file : string) (test : TestResultData)
    (groups : list (string * list TestResultData)) :
  NoDup groups.*1 → NoDup (group_push file test groups).*1.
Proof.
  induction groups as [|[g tests] groups IH]; cbn [group_push fmap list_fmap fst].
  - intros _. apply NoDup_singleton.
  - intros [Hg Hnd]%NoDup_cons.
    destruct (String.eqb_spec g file) as [->|Hne]; cbn [fmap list_fmap fst].
    + by apply NoDup_cons.
    + apply NoDup_cons. split; [|by apply IH].
      intros Hin. apply group_push_keys in Hin as [->|Hin]; done.
Qed.

Lemma group_get_elem_of (f : string) (tests : list TestResultData)
    (groups : list (string * list TestResultData)) :
  NoDup groups.*1 → (f, tests) ∈ groups → group_get f groups = Some tests.
Proof.
  induction groups as [|[g ts] groups IH]; cbn [group_get fmap list_fmap fst].
  - intros _ []%elem_of_nil.
  - intros [Hg Hnd]%NoDup_cons [[= -> ->]|Hin]%elem_of_cons.
    + by rewrite String.eqb_refl.
    + destruct (String.eqb_spec g f) as [->|_]; [|by apply IH].
      exfalso. apply Hg. apply list_elem_of_fmap. by exists (f, tests).
Qed.

Lemma group_get_Some_elem_of (f : string) (tests : list TestResultData)
    (groups : list (string * list TestResultData)) :
  group_get f groups = Some tests → (f, tests) ∈ groups.
Proof.
  induction groups as [|[g ts] groups IH]; cbn [group_get]; [done|].
  destruct (String.eqb_spec g f) as [->|_].
  - intros [= ->]. by left.
  - intros H. right. by apply IH.
Qed.

Lemma tests_of_file_snoc (f : string) (rs : list TestResultData) (t : TestResultData) :
  tests_of_file f (rs ++ [t])
  = tests_of_file f rs ++ (if String.eqb (file t) f then [t] else []).
Proof. unfold tests_of_file. rewrite List.filter_app. reflexivity. Qed.

(** The groups hold, for every file, the results of that file in order. *)
Lemma group_by_file_get (rs : list TestResultData) (f : string) :
  NoDup (group_by_file rs).*1 ∧
  group_get f (group_by_file rs)
  = if decide (tests_of_file f rs = []) then None else Some (tests_of_file f rs).
Proof.
  unfold group_by_file. revert f.
  induction rs as [|t rs IH] using rev_ind; intros f.
  - split; [constructor|reflexivity].
  - rewrite foldl_app. cbn [foldl]. split.
    + apply group_push_NoDup, (IH f).
    + rewrite group_get_push, tests_of_file_snoc.
      destruct (String.eqb_spec (file t) f) as [<-|Hne].
      * destruct (IH (file t)) as [_ ->].
        destruct (decide (tests_of_file (file t) rs ++ [t] = [])) as [Hnil|_].
        { by destruct (tests_of_file (file t) rs). }
        by destruct (decide (tests_of_file (file t) rs = [])) as [->|_].
      * destruct (IH f) as [_ ->]. by rewrite app_nil_r.
Qed.

Lemma group_by_file_flatten (rs : list TestResultData) :
  mjoin (group_by_file rs).*2 ≡ₚ rs.
Proof.
  unfold group_by_file. induction rs as [|t rs IH] using rev_ind; [done|].
  rewrite foldl_app. cbn [foldl].
  assert (Hpush : ∀ groups, mjoin (group_push (file t) t groups).*2 ≡ₚ mjoin groups.*2 ++ [t]).
  { clear. induction groups as [|[g ts] groups IHg]; cbn [group_push]; [done|].
    destruct (String.eqb g (file t)); cbn.
    - rewrite <- !(assoc_L app). apply Permutation_app_head.
      apply Permutation_app_comm.
    - rewrite IHg. by rewrite (assoc_L app). }
  by rewrite Hpush, IH.
Qed.

(** X9: [generateGroupedTests] makes one group per file that has results,
    no file twice; a group holds exactly the results of its file, in the
    order of the run, so it is never empty, and every result is in the
    group of its file; together the groups hold every result once. *)
Theorem generateGroupedTests_partition (r : SmartReporter) :
  NoDup (fg_file <$> generateGroupedTests r) ∧
  (∀ g, g ∈ generateGroupedTests r →
     fg_tests g = tests_of_file (fg_file g) (results r) ∧ fg_tests g ≠ []) ∧
  (∀ t, t ∈ results r → ∃ g, g ∈ generateGroupedTests r ∧ fg_file g = file t) ∧
  mjoin (fg_tests <$> generateGroupedTests r) ≡ₚ results r.
Proof.
  unfold generateGroupedTests.
  assert (Hfiles : ∀ l : list (string * list TestResultData),
            fg_file <$> ((λ entry : string * list TestResultData,
              {| fg_file := entry.1; fg_groupId := sanitizeId (units entry.1);
                 fg_passed := count_results (has_status Passed) entry.2;
                 fg_failed := count_results failed_or_timedOut entry.2;
                 fg_tests := entry.2 |}) <$> l) = l.*1).
  { intros l. rewrite <- list_fmap_compose. by apply list_fmap_ext. }
  assert (Htests : ∀ l : list (string * list TestResultData),
            fg_tests <$> ((λ entry : string * list TestResultData,
              {| fg_file := entry.1; fg_groupId := sanitizeId (units entry.1);
                 fg_passed := count_results (has_status Passed) entry.2;
                 fg_failed := count_results failed_or_timedOut entry.2;
                 fg_tests := entry.2 |}) <$> l) = l.*2).
  { intros l. rewrite <- list_fmap_compose. by apply list_fmap_ext. }
  rewrite Hfiles, Htests. split; [apply (group_by_file_get _ ""%string)|].
  split; [|split; [|apply group_by_file_flatten]].
  - intros g ([f tests] & -> & Hin)%list_elem_of_fmap. cbn [fg_tests fg_file fst snd].
    destruct (group_by_file_get (results r) f) as [Hnd Hget].
    rewrite (group_get_elem_of _ _ _ Hnd Hin) in Hget.
    destruct (decide (tests_of_file f (results r) = [])) as [|Hne]; [done|].
    injection Hget as ->. done.
  - intros t Ht. destruct (group_by_file_get (results r) (file t)) as [_ Hget].
    destruct (decide (tests_of_file (file t) (results r) = [])) as [Hnil|Hne].
    + exfalso. assert (Hin : t ∈ tests_of_file (file t) (results r)).
      { unfold tests_of_file. apply list_elem_of_In, List.filter_In.
        split; [by apply list_elem_of_In|apply String.eqb_refl]. }
      rewrite Hnil in Hin. by apply elem_of_nil in Hin.
    + apply group_get_Some_elem_of in Hget. eexists. split.
      * apply list_elem_of_fmap. eexists. split; [reflexivity|exact Hget].
      * reflexivity.
Qed.

Lemma grouped_tests_flatten (r : SmartReporter) :
  mjoin (fg_tests <$> generateGroupedTests r) ≡ₚ results r.
Proof.
  unfold generateGroupedTests. rewrite <- list_fmap_compose.
  rewrite (list_fmap_ext _ snd (group_by_file (results r))) by done.
  apply group_by_file_flatten.
Qed.

Lemma count_results_app (p : TestResultData → bool) (l1 l2 : list TestResultData) :
  count_results p (l1 ++ l2) = count_results p l1 + count_results p l2.
Proof. unfold count_results. by rewrite List.filter_app, length_app. Qed.

Lemma count_results_mjoin (p : TestResultData → bool) (ls : list (list TestResultData)) :
  count_results p (mjoin ls) = sum_list (count_results p <$> ls).
Proof.
  induction ls as [|l ls IH]; [reflexivity|].
  change (mjoin (l :: ls)) with (l ++ mjoin ls).
  rewrite count_results_app, IH. reflexivity.
Qed.

Lemma filter_length_Permutation {A : Type} (p : A → bool) (l1 l2 : list A) :
  l1 ≡ₚ l2 → length (List.filter p l1) = length (List.filter p l2).
Proof.
  induction 1 as [|x l1 l2 _ IH|x y l|l1 l2 l3 _ IH1 _ IH2]; cbn.
  - reflexivity.
  - destruct (p x); cbn; by rewrite IH.
  - by destruct (p x), (p y).
  - by rewrite IH1.
Qed.

(** X10: the passed counts of the file groups add up to the passed count
    of the page header; the failed counts of the groups add up to the
    failed count of the run summary, which is the header's failed count
    plus the number of timed-out tests. *)
Theorem group_counts_add_up (r : SmartReporter) (now nowTrend nowUpdate : Z) :
  sum_list (fg_passed <$> generateGroupedTests r)
  = html_passed (generateHtml r now nowTrend) ∧
  sum_list (fg_failed <$> generateGroupedTests r)
  = rs_failed (run_summary r nowUpdate) ∧
  sum_list (fg_failed <$> generateGroupedTests r)
  = html_failed (generateHtml r now nowTrend)
    + count_results (has_status TimedOut) (results r).
Proof.
  assert (Hsum : ∀ p,
    sum_list ((λ g, count_results p (fg_tests g)) <$> generateGroupedTests r)
    = count_results p (results r)).
  { intros p. rewrite (list_fmap_compose fg_tests (count_results p)).
    rewrite <- count_results_mjoin. apply filter_length_Permutation.
    apply grouped_tests_flatten. }
  assert (Hp : fg_passed <$> generateGroupedTests r
               = (λ g, count_results (has_status Passed) (fg_tests g))
                   <$> generateGroupedTests r).
  { unfold generateGroupedTests. rewrite <- !list_fmap_compose. by apply list_fmap_ext. }
  assert (Hf : fg_failed <$> generateGroupedTests r
               = (λ g, count_results failed_or_timedOut (fg_tests g))
                   <$> generateGroupedTests r).
  { unfold generateGroupedTests. rewrite <- !list_fmap_compose. by apply list_fmap_ext. }
  rewrite Hp, Hf, !Hsum. cbn [generateHtml run_summary html_passed html_failed rs_failed].
  split; [reflexivity|]. split; [reflexivity|]. apply count_failed_or_timedOut.
Qed.

Lemma flaky_threshold_truthy (s : float) :
  (0.3 <=? s)%float = true → JS.truthy s = true.
Proof.
  intros H. unfold JS.truthy.
  destruct (float_leb_is_nan _ _ H) as [_ ->].
  destruct (s =? PrimFloat.zero)%float eqn:E; [|reflexivity].
  apply float_eqb_leb in E as [E _].
  pose proof (float_leb_trans _ _ _ H E) as Hcontra.
  vm_compute in Hcontra. discriminate.
Qed.

Lemma card_flaky_is_flaky (t : TestResultData) :
  card_flaky (generateTestCard t) = is_flaky t.
Proof.
  unfold generateTestCard, is_flaky. cbn [card_flaky].
  destruct (flakinessScore t) as [s|]; [|reflexivity].
  destruct (0.3 <=? s)%float eqn:E; [|by rewrite andb_false_r].
  by rewrite (flaky_threshold_truthy _ E).
Qed.

Lemma card_slow_is_slow (t : TestResultData) :
  card_slow (generateTestCard t) = is_slow t.
Proof. unfold generateTestCard, is_slow. by destruct (performanceTrend t). Qed.

Lemma page_cards_Permutation (r : SmartReporter) :
  page_cards r ≡ₚ generateTestCard <$> results r.
Proof.
  unfold page_cards.
  assert (H : ∀ gs : list FileGroup,
            mjoin (fg_cards <$> gs) = generateTestCard <$> mjoin (fg_tests <$> gs)).
  { induction gs as [|g gs IH]; [reflexivity|].
    rewrite !fmap_cons. change (mjoin (?x :: ?l)) with (x ++ mjoin l).
    by rewrite fmap_app, IH. }
  rewrite H. apply fmap_Permutation, grouped_tests_flatten.
Qed.

Lemma filter_fmap_length {A B : Type} (f : A → B) (p : B → bool) (l : list A) :
  length (List.filter p (f <$> l)) = length (List.filter (λ x, p (f x)) l).
Proof.
  induction l as [|x l IH]; [reflexivity|]. cbn. destruct (p (f x)); cbn; by rewrite IH.
Qed.

Lemma filter_ext_length {A : Type} (p q : A → bool) (l : list A) :
  (∀ x, p x = q x) → length (List.filter p l) = length (List.filter q l).
Proof. intros H. by rewrite (List.filter_ext _ _ H). Qed.

(** X11: for every filter of the page except Failed, the number of cards
    the filter shows is the count printed on its button; the Failed
    filter also shows the timed-out tests, which its button does not
    count. *)
Theorem filter_shows_button_count (r : SmartReporter) (now nowTrend : Z) (f : Filter) :
  length (List.filter (filter_shows f) (page_cards r))
  = button_count (generateHtml r now nowTrend) f
    + match f with
      | FilterFailed => count_results (has_status TimedOut) (results r)
      | _ => 0
      end.
Proof.
  rewrite (filter_length_Permutation _ _ _ (page_cards_Permutation r)).
  rewrite filter_fmap_length.
  destruct f; cbn [button_count generateHtml html_total html_passed html_failed
                   html_skipped html_flaky html_slow filter_shows].
  - rewrite Nat.add_0_r. clear. induction (results r) as [|t l IH]; cbn; [done|].
    by rewrite IH.
  - by rewrite Nat.add_0_r.
  - rewrite <- count_failed_or_timedOut. reflexivity.
  - by rewrite Nat.add_0_r.
  - rewrite Nat.add_0_r. apply filter_ext_length, card_flaky_is_flaky.
  - rewrite Nat.add_0_r. apply filter_ext_length, card_slow_is_slow.
Qed.

Lemma float_leb_negb_ltb (a b : float) :
  PrimFloat.is_nan a = false → PrimFloat.is_nan b = false →
  (a <=? b)%float = negb (b <? a)%float.
Proof.
  rewrite !is_nan_false_not_nan, FloatAxioms.ltb_spec, FloatAxioms.leb_spec.
  unfold SFltb, SFleb. intros Ha Hb.
  destruct (SFcompare (Prim2SF a) (Prim2SF b)) as [c|] eqn:E.
  - rewrite (SFcompare_antisym _ _ _ E). by destruct c.
  - by destruct (SFcompare_None _ _ E).
Qed.

Lemma badge_class_indicator (i : FlakinessIndicator) :
  badge_class (Some i) = badge_of_indicator i.
Proof. destruct i; vm_compute; reflexivity. Qed.

Lemma analyse_score_indicator (r : SmartReporter) (ev : TestEvent) (s : float) :
  flakinessScore (analyse r ev) = Some s →
  flakinessIndicator (analyse r ev) = Some (getFlakinessIndicator s).
Proof.
  unfold analyse.
  destruct (bool_decide (ev_status ev = Skipped)); [done|].
  destruct (0 <? length _)%nat; [|done].
  destruct (0 <? length (List.filter _ _))%nat; [|done].
  cbn. by intros [= <-].
Qed.

(** X12: on a result of [onTestEnd] the badge of the card is the one of
    the stored indicator; when the score is a number, the card's own
    thresholds agree with it: the card is flagged flaky exactly when the
    badge is Flaky, and unstable exactly when the badge is Unstable. *)
Theorem card_agrees_with_indicator (r : SmartReporter) (ev : TestEvent) :
  ∃ td, results (onTestEnd r ev) = results r ++ [td] ∧
    card_badge (generateTestCard td)
    = from_option badge_of_indicator BadgeNew (flakinessIndicator td) ∧
    ∀ s, flakinessScore td = Some s → PrimFloat.is_nan s = false →
      (card_flaky (generateTestCard td) = true
       ↔ card_badge (generateTestCard td) = BadgeFlaky) ∧
      (card_unstable (generateTestCard td) = true
       ↔ card_badge (generateTestCard td) = BadgeUnstable).
Proof.
  exists (analyse r ev). split; [apply onTestEnd_results|].
  assert (Hbadge : card_badge (generateTestCard (analyse r ev))
                   = from_option badge_of_indicator BadgeNew
                       (flakinessIndicator (analyse r ev))).
  { unfold generateTestCard. cbn [card_badge].
    destruct (flakinessIndicator (analyse r ev)) as [i|]; [|reflexivity].
    apply badge_class_indicator. }
  split; [exact Hbadge|]. intros s Hs Hnan.
  rewrite Hbadge, (analyse_score_indicator _ _ _ Hs).
  unfold generateTestCard. cbn [card_flaky card_unstable from_option]. rewrite Hs.
  assert (H1 : PrimFloat.is_nan 0.1 = false) by reflexivity.
  assert (H3 : PrimFloat.is_nan 0.3 = false) by reflexivity.
  rewrite (float_leb_negb_ltb _ _ H3 Hnan), (float_leb_negb_ltb _ _ H1 Hnan).
  unfold getFlakinessIndicator.
  destruct (s <? 0.1)%float eqn:E1.
  - assert (E3 : (s <? 0.3)%float = true).
    { apply (float_ltb_leb_trans _ 0.1%float); [exact E1|reflexivity]. }
    rewrite E3. cbn. split; split; done.
  - destruct (s <? 0.3)%float; cbn; split; split; done.
Qed.

Lemma card_agrees_with_indicator_witness :
  let r := reporter_with default_options
             (history_of_tests
                {[ "a.spec.ts::t" :=
                     [sample_entry true 10 "2023-11-13T10:00:00.000Z";
                      sample_entry false 14 "2023-11-13T12:00:00.000Z"] ]}) [] in
  ∃ td, results (onTestEnd r (sample_event "a.spec.ts::t" Passed 11)) = [td] ∧
        card_flaky (generateTestCard td) = true ∧
        card_badge (generateTestCard td) = BadgeFlaky.
Proof.
  intros r.
  destruct (card_agrees_with_indicator r (sample_event "a.spec.ts::t" Passed 11))
    as (td & Hres & Hbadge & Hflags).
  exists td. split; [exact Hres|].
  assert (Htd : td = analyse r (sample_event "a.spec.ts::t" Passed 11)).
  { rewrite onTestEnd_results in Hres. by injection Hres. }
  assert (Hscore : flakinessScore td = Some 0.5%float) by (rewrite Htd; reflexivity).
  destruct (Hflags _ Hscore eq_refl) as [[Hfb _] _].
  assert (Hflaky : card_flaky (generateTestCard td) = true) by (rewrite Htd; reflexivity).
  split; [exact Hflaky|]. by apply Hfb.
Defined.

(** ** Webhook notifications *)

(** X13: no notification is attempted when no test failed or timed out,
    whatever webhooks are configured; otherwise at most two are attempted,
    each reports the number of failed and timed-out tests and lists the
    titles of the first five of them at most, in the order of the run; a
    rejected request changes nothing about what is attempted. *)
Theorem webhook_notifications (r : SmartReporter) (fetch : WebhookPost → bool) :
  (count_results failed_or_timedOut (results r) = 0 →
     sendWebhookNotifications r fetch = []) ∧
  length (sendWebhookNotifications r fetch) ≤ 2 ∧
  (∀ l, l ∈ sendWebhookNotifications r fetch →
     ws_failed (post_summary (log_post l))
     = count_results failed_or_timedOut (results r) ∧
     1 ≤ ws_failed (post_summary (log_post l)) ∧
     length (post_titles (log_post l)) ≤ 5 ∧
     post_titles (log_post l)
       `prefix_of` (title <$> List.filter failed_or_timedOut (results r))) ∧
  log_post <$> sendWebhookNotifications r fetch
  = log_post <$> sendWebhookNotifications r (λ _, true).
Proof.
  unfold sendWebhookNotifications.
  destruct (Nat.eqb_spec (count_results failed_or_timedOut (results r)) 0) as [Hz|Hnz].
  { split; [done|]. split; [cbn; lia|]. split; [|done].
    intros l Hl. by apply elem_of_nil in Hl. }
  split; [done|].
  set (titles := title <$> take 5 (List.filter failed_or_timedOut (results r))).
  assert (Hlen : length titles ≤ 5).
  { unfold titles. rewrite length_fmap, length_take. lia. }
  assert (Hpre : titles `prefix_of` (title <$> List.filter failed_or_timedOut (results r))).
  { unfold titles. rewrite <- (take_drop 5 (List.filter _ _)) at 2.
    rewrite fmap_app. by apply prefix_app_r. }
  unfold attempt.
  destruct (configured (slackWebhook (options r))) as [u1|],
           (configured (teamsWebhook (options r))) as [u2|]; cbn [app length fmap list_fmap].
  all: split; [lia|]. all: split; [|by repeat destruct (fetch _)].
  all: intros l Hl; repeat (apply elem_of_cons in Hl as [->|Hl]);
       try (by apply elem_of_nil in Hl).
  all: destruct (fetch _); cbn [log_post post_summary post_titles ws_failed];
       repeat split; try done; lia.
Qed.

Lemma webhook_notifications_witness :
  let o := {| outputFile := "smart-report.html"; historyFile := "test-history.json";
              maxHistoryRuns := 10; performanceThreshold := 0.2;
              slackWebhook := Some "https://hooks.example/slack";
              teamsWebhook := None |} in
  sendWebhookNotifications
    (reporter_with o empty_history [sample_result "a.spec.ts::t" Passed]) (λ _, true) = [] ∧
  log_post <$> sendWebhookNotifications
    (reporter_with o empty_history
       [sample_result "a.spec.ts::t" Passed; sample_result "a.spec.ts::u" TimedOut])
    (λ _, false)
  = [SlackPost "https://hooks.example/slack"
       {| ws_failed := 1; ws_total := 2; ws_passed := 1 |} ["t"]].
Proof.
  intros o. split.
  - by apply (webhook_notifications
             (reporter_with o empty_history [sample_result "a.spec.ts::t" Passed])).
  - destruct (webhook_notifications
                (reporter_with o empty_history
                   [sample_result "a.spec.ts::t" Passed;
                    sample_result "a.spec.ts::u" TimedOut]) (λ _, false))
      as (_ & _ & _ & ->).
    reflexivity.
Defined.

(** ** The merge command line tool: what is passed on *)

Lemma parse_args_spec_nil : parse_args_spec [].
Proof.
  intros st. exists []. cbn. rewrite app_nil_r.
  split; [done|]. split; [done|]. split; [constructor|by left].
Qed.

Lemma parse_args_cons (a : string) (rest : list string) (st : CliState) :
  parse_args (a :: rest) st =
    if is_option_o a then
      match rest with
      | v :: rest' =>
          parse_args rest'
            {| cli_historyFiles := cli_historyFiles st;
               cli_outputFile := Some v; cli_maxRuns := cli_maxRuns st |}
      | [] =>
          {| cli_historyFiles := cli_historyFiles st;
             cli_outputFile := None; cli_maxRuns := cli_maxRuns st |}
      end
    else if is_option_n a then
      match rest with
      | v :: rest' =>
          parse_args rest'
            {| cli_historyFiles := cli_historyFiles st;
               cli_outputFile := cli_outputFile st;
               cli_maxRuns := parseInt10 (Some v) |}
      | [] =>
          {| cli_historyFiles := cli_historyFiles st;
             cli_outputFile := cli_outputFile st;
             cli_maxRuns := parseInt10 None |}
      end
    else if negb (starts_with_dash a) then
      parse_args rest
        {| cli_historyFiles := cli_historyFiles st ++ [a];
           cli_outputFile := cli_outputFile st; cli_maxRuns := cli_maxRuns st |}
    else parse_args rest st.
Proof. reflexivity. Qed.

Lemma parse_args_spec_step (args : list string) :
  parse_args_spec args ∧ ∀ a, parse_args_spec (a :: args).
Proof.
  induction args as [|b args [IH0 IH1]].
  - split; [apply parse_args_spec_nil|]. intros a st. cbn [parse_args].
    destruct (is_option_o a); [|destruct (is_option_n a);
      [|destruct (negb (starts_with_dash a)) eqn:Edash]].
    + exists []. cbn. rewrite app_nil_r.
      split; [done|]. split; [apply sublist_nil_l|]. split; [constructor|].
      right. by left.
    + exists []. cbn. rewrite app_nil_r.
      split; [done|]. split; [apply sublist_nil_l|]. split; [constructor|]. by left.
    + exists [a]. cbn.
      split; [done|]. split; [done|]. split; [|by left].
      constructor; [|constructor]. by apply negb_true_iff in Edash.
    + exists []. cbn. rewrite app_nil_r.
      split; [done|]. split; [apply sublist_nil_l|]. split; [constructor|]. by left.
  - split; [apply IH1|]. intros a st. rewrite parse_args_cons. cbv beta match.
    destruct (is_option_o a); [|destruct (is_option_n a);
      [|destruct (negb (starts_with_dash a)) eqn:Edash]].
    + destruct (IH0 {| cli_historyFiles := cli_historyFiles st;
                       cli_outputFile := Some b;
                       cli_maxRuns := cli_maxRuns st |}) as (extra & Hf & Hsub & Hnd & Hout).
      exists extra. split; [exact Hf|]. split; [by do 2 constructor|].
      split; [exact Hnd|]. right.
      destruct Hout as [Hout|[Hout|(v & Hout & Hv)]].
      * right. exists b. split; [exact Hout|]. right. by left.
      * by left.
      * right. exists v. split; [exact Hout|]. by do 2 right.
    + destruct (IH0 {| cli_historyFiles := cli_historyFiles st;
                       cli_outputFile := cli_outputFile st;
                       cli_maxRuns := parseInt10 (Some b) |})
        as (extra & Hf & Hsub & Hnd & Hout).
      exists extra. split; [exact Hf|]. split; [by do 2 constructor|].
      split; [exact Hnd|].
      destruct Hout as [Hout|[Hout|(v & Hout & Hv)]]; [by left|right; by left|].
      right. right. exists v. split; [exact Hout|]. by do 2 right.
    + destruct (IH1 b {| cli_historyFiles := cli_historyFiles st ++ [a];
                         cli_outputFile := cli_outputFile st;
                         cli_maxRuns := cli_maxRuns st |})
        as (extra & Hf & Hsub & Hnd & Hout).
      exists (a :: extra). cbn [cli_historyFiles cli_outputFile] in *.
      split; [by rewrite Hf, <- (assoc_L app)|]. split; [by constructor|].
      split; [constructor; [by apply negb_true_iff in Edash|exact Hnd]|].
      destruct Hout as [Hout|[Hout|(v & Hout & Hv)]]; [by left|right; by left|].
      right. right. exists v. split; [exact Hout|]. by right.
    + destruct (IH1 b st) as (extra & Hf & Hsub & Hnd & Hout).
      exists extra. split; [exact Hf|]. split; [by constructor|].
      split; [exact Hnd|].
      destruct Hout as [Hout|[Hout|(v & Hout & Hv)]]; [by left|right; by left|].
      right. right. exists v. split; [exact Hout|]. by right.
Qed.

(** X14: when [main] calls the merge, the history files it passes are
    arguments of the command line, in their order, none of which begins
    with a dash, and there is at least one; the output path is a
    non-empty argument; and neither help flag was given. *)
Theorem main_merge_arguments (args files : list string) (out : string)
    (maxRuns : option Z) :
  main args = CallMerge files out maxRuns →
  files ≠ [] ∧ files `sublist_of` args ∧
  Forall (λ f, starts_with_dash f = false) files ∧
  out ≠ "" ∧ out ∈ args ∧ ("-h" ∉ args) ∧ ("--help" ∉ args).
Proof.
  unfold main.
  destruct ((length args =? 0)%nat || help_requested args) eqn:Ehelp; [done|].
  apply orb_false_iff in Ehelp as [_ Ehelp].
  destruct (parse_args_spec_step args) as [Hspec _].
  destruct (Hspec initial_cli) as (extra & Hfiles & Hsub & Hdash & Hout).
  cbn [cli_historyFiles initial_cli app cli_outputFile] in Hfiles, Hout.
  destruct (length (cli_historyFiles (parse_args args initial_cli)) =? 0)%nat eqn:El;
    [done|].
  unfold output_given.
  destruct (cli_outputFile (parse_args args initial_cli)) as [s|] eqn:Eo; [|done].
  destruct (String.eqb_spec s "") as [|Hne]; [done|].
  intros [= <- <- <-]. rewrite Hfiles in *.
  split; [by destruct extra|]. split; [exact Hsub|]. split; [exact Hdash|].
  split; [exact Hne|]. split.
  - destruct Hout as [Hout|[Hout|(v & Hout & Hv)]]; [done|done|]. by injection Hout as <-.
  - split; intros Hin.
    + assert (help_requested args = true) by (apply help_requested_iff; by left).
      congruence.
    + assert (help_requested args = true) by (apply help_requested_iff; by right).
      congruence.
Qed.

Lemma main_merge_arguments_witness :
  let args := ["shard1.json"; "-n"; "5"; "shard2.json"; "-o"; "merged.json"] in
  ["shard1.json"; "shard2.json"] `sublist_of` args ∧ "merged.json" ∈ args.
Proof.
  intros args.
  destruct (main_merge_arguments args ["shard1.json"; "shard2.json"]
              "merged.json" (Some 5%Z) eq_refl) as (_ & Hsub & _ & _ & Hout & _).
  split; [exact Hsub|exact Hout].
Defined.

(** ** Retry analysis *)

(** X15: the retry pattern [calculateRetryInfo] builds has one entry per
    retry, all false, followed by one entry that tells whether the test
    ended passed; the pass index is set exactly when the test passed
    after at least one retry, and then no failed retries are counted. *)
Theorem retry_info_shape {E : Type} (retry_of : E → option Z) (threshold : Z)
    (test : TestResultData) (history : list E) :
  let info := calculateRetryInfo retry_of threshold test history in
  retryPattern info
  = replicate (Z.to_nat (retry test)) false ++ [bool_decide (status test = Passed)] ∧
  ((0 ≤ passedOnRetry info)%Z ↔ status test = Passed ∧ (0 < retry test)%Z) ∧
  ((0 ≤ passedOnRetry info)%Z → failedRetries info = 0%Z) ∧
  ((threshold ≤ retry test)%Z → needsAttention info = true).
Proof.
  unfold calculateRetryInfo. cbn [retryPattern passedOnRetry failedRetries needsAttention].
  split; [|split; [|split]].
  - destruct (Z.ltb_spec 0 (retry test)) as [Hpos|Hneg]; [reflexivity|].
    by replace (Z.to_nat (retry test)) with 0 by lia.
  - destruct (decide (status test = Passed)) as [Hp|Hp].
    + rewrite bool_decide_eq_true_2 by done. cbn [andb].
      destruct (Z.ltb_spec 0 (retry test)); split; try lia; intros; try tauto; lia.
    + rewrite bool_decide_eq_false_2 by done. cbn [andb]. split; [lia|tauto].
  - destruct (decide (status test = Passed)) as [Hp|Hp].
    + rewrite Hp. done.
    + rewrite (bool_decide_eq_false_2 _ Hp). cbn [andb]. lia.
  - intros H. apply orb_true_iff. left. by apply Z.leb_le.
Qed.

Lemma retry_info_shape_witness :
  let test := {| testId := "a.spec.ts::t"; title := "t"; file := "a.spec.ts";
                 status := Failed; duration := 12; retry := 2;
                 flakinessScore := None; flakinessIndicator := None;
                 performanceTrend := None; averageDuration := None;
                 td_history := [] |} in
  retryPattern (calculateRetryInfo (λ _ : unit, None) 2 test []) = [false; false; false] ∧
  needsAttention (calculateRetryInfo (λ _ : unit, None) 2 test []) = true.
Proof.
  intros test.
  destruct (retry_info_shape (λ _ : unit, None) 2 test []) as (Hpattern & _ & _ & Hattention).
  split; [exact Hpattern|]. apply Hattention. done.
Defined.

(** X16: the summary shown for an analysed test is "No retries" when the
    retry count is 0; after [n > 0] retries it is "Passed on retry
    n+1/n+1" for a test that passed, the attempt shown always being the
    last, and "Failed after n+1 attempts" for any other status. *)
Theorem retry_summary_after_analysis {E : Type} (retry_of : E → option Z)
    (threshold : Z) (test : TestResultData) (history : list E) :
  let summary := getRetrySummary (Some (calculateRetryInfo retry_of threshold test history)) in
  (retry test = 0%Z → summary = NoRetries) ∧
  ((0 < retry test)%Z → status test = Passed →
     summary = PassedOnRetry (retry test + 1) (retry test + 1)) ∧
  ((0 < retry test)%Z → status test ≠ Passed →
     summary = FailedAfter (retry test + 1)) ∧
  getRetrySummary None = NoRetries.
Proof.
  unfold getRetrySummary, calculateRetryInfo. cbn [totalRetries passedOnRetry].
  split; [|split; [|split]].
  - by intros ->.
  - intros Hpos Hp. destruct (Z.eqb_spec (retry test) 0); [lia|].
    rewrite (bool_decide_eq_true_2 _ Hp). cbn [andb].
    destruct (Z.ltb_spec 0 (retry test)); [|lia].
    destruct (Z.leb_spec 0 (retry test)); [done|lia].
  - intros Hpos Hp. destruct (Z.eqb_spec (retry test) 0); [lia|].
    by rewrite (bool_decide_eq_false_2 _ Hp).
  - reflexivity.
Qed.

Lemma retry_summary_after_analysis_witness :
  let test := {| testId := "a.spec.ts::t"; title := "t"; file := "a.spec.ts";
                 status := Passed; duration := 12; retry := 2;
                 flakinessScore := None; flakinessIndicator := None;
                 performanceTrend := None; averageDuration := None;
                 td_history := [] |} in
  getRetrySummary (Some (calculateRetryInfo (λ _ : unit, None) 3 test []))
  = PassedOnRetry 3 3.
Proof.
  intros test.
  by apply (retry_summary_after_analysis (λ _ : unit, None) 3 test []).
Defined.

(** ** History: what a run adds *)

(** X17: with a cap of at least one, recording a run gives a test that
    was part of it one new entry per result it has in the run, in order,
    after the entries it had, and keeps the most recent [maxHistoryRuns]
    of the whole; the newest entry is the one of the test's last result. *)
Theorem updateHistory_entries (r : SmartReporter) (timestamp : string) (now : Z)
    (id : string) :
  (1 ≤ maxHistoryRuns (options r))%Z →
  (∃ t, t ∈ results r ∧ testId t = id) →
  let old := default [] (tests (history r) !! id) in
  let added := entries_added timestamp id (results r) in
  tests (history (updateHistory r timestamp now)) !! id
  = Some (last_n (Z.to_nat (maxHistoryRuns (options r))) (old ++ added)) ∧
  added ≠ [] ∧
  last (last_n (Z.to_nat (maxHistoryRuns (options r))) (old ++ added)) = last added.
Proof.
  intros Hcap (t & Ht & Hid) old added.
  assert (Hadded : added ≠ []).
  { unfold added, entries_added. intros Hnil. apply fmap_nil_inv in Hnil.
    assert (Hin : t ∈ List.filter (λ t, String.eqb (testId t) id) (results r)).
    { apply list_elem_of_In, List.filter_In. split; [by apply list_elem_of_In|].
      rewrite Hid. apply String.eqb_refl. }
    rewrite Hnil in Hin. by apply elem_of_nil in Hin. }
  split; [|split; [exact Hadded|]].
  - rewrite updateHistory_tests, (foldl_record_result_entries _ _ _ _ _ Hcap).
    by rewrite decide_False.
  - destruct added as [|e added' _] using rev_ind; [done|].
    rewrite (assoc_L app). unfold last_n.
    rewrite length_app. cbn [length].
    rewrite drop_app_le by (rewrite !length_app; cbn; lia).
    by rewrite !last_snoc.
Qed.

Lemma updateHistory_entries_witness :
  let r := reporter_with (options_with_max 2)
             (history_of_tests {[ "a.spec.ts::t" := three_entries ]})
             [sample_result "a.spec.ts::t" Failed; sample_result "a.spec.ts::t" Passed] in
  tests (history (updateHistory r "2023-11-14T22:13:25.000Z" 1700000005000))
    !! "a.spec.ts::t"
  = Some [entry_of "2023-11-14T22:13:25.000Z" (sample_result "a.spec.ts::t" Failed);
          entry_of "2023-11-14T22:13:25.000Z" (sample_result "a.spec.ts::t" Passed)].
Proof.
  intros r.
  destruct (updateHistory_entries r "2023-11-14T22:13:25.000Z" 1700000005000
              "a.spec.ts::t") as (H & _ & _).
  - cbn. lia.
  - exists (sample_result "a.spec.ts::t" Failed). split; [by left|reflexivity].
  - rewrite H. reflexivity.
Defined.

(** X18: a test without history that has exactly one result in a run is
    classified in the next run by that result alone: Stable with score 0
    when it passed, New without score when it was skipped, and Flaky with
    score 1 for any other status. *)
Theorem second_run_indicator (r next : SmartReporter) (timestamp : string) (now : Z)
    (t : TestResultData) (ev : TestEvent) :
  (1 ≤ maxHistoryRuns (options r))%Z →
  tests (history r) !! testId t = None →
  List.filter (λ u, String.eqb (testId u) (testId t)) (results r) = [t] →
  history next = history (updateHistory r timestamp now) →
  ev_testId ev = testId t →
  ev_status ev ≠ Skipped →
  flakinessIndicator (analyse next ev)
  = Some (match status t with
          | Passed => IndStable
          | Skipped => IndNew
          | _ => IndFlaky
          end) ∧
  flakinessScore (analyse next ev)
  = match status t with
    | Passed => Some 0%float
    | Skipped => None
    | _ => Some 1%float
    end.
Proof.
  intros Hcap Hnone Hone Hnext Hid Hstatus.
  assert (Hentries : tests (history next) !! ev_testId ev = Some [entry_of timestamp t]).
  { rewrite Hnext, Hid, updateHistory_tests.
    rewrite (foldl_record_result_entries _ _ _ _ _ Hcap).
    unfold entries_added. rewrite Hone, Hnone. cbn [fmap list_fmap default app].
    rewrite decide_False by done. unfold last_n. cbn [length].
    by replace (1 - Z.to_nat (maxHistoryRuns (options r))) with 0 by lia. }
  unfold analyse. rewrite Hentries, (bool_decide_eq_false_2 _ Hstatus).
  cbn [default]. unfold entry_of.
  destruct (status t); split; vm_compute; reflexivity.
Qed.

Lemma second_run_indicator_witness :
  let r := reporter_with default_options empty_history
             [sample_result "a.spec.ts::t" Failed; sample_result "a.spec.ts::u" Passed] in
  let next := reporter_with default_options
                (history (updateHistory r "2023-11-14T22:13:25.000Z" 1700000005000)) [] in
  flakinessIndicator (analyse next (sample_event "a.spec.ts::t" Passed 9)) = Some IndFlaky ∧
  flakinessIndicator (analyse next (sample_event "a.spec.ts::u" Passed 9)) = Some IndStable.
Proof.
  intros r next. split.
  - apply (second_run_indicator r next "2023-11-14T22:13:25.000Z" 1700000005000
             (sample_result "a.spec.ts::t" Failed)); done.
  - apply (second_run_indicator r next "2023-11-14T22:13:25.000Z" 1700000005000
             (sample_result "a.spec.ts::u" Passed)); done.
Defined.

(** ** Pass rate *)

Lemma rate_checked_200 :
  forallb (λ n, forallb (λ p, rate_checked p (n - p)) (seq 0 (S n))) (seq 1 200) = true.
Proof. vm_compute. reflexivity. Qed.

(** X19: for up to 200 tests that passed or failed, the pass rate is a
    whole number between 0 and 100 that lies within half a point of the
    exact percentage of passed tests; without such tests it is 0. *)
Theorem pass_rate_whole_percent (passed failed : nat) :
  passed + failed ≤ 200 →
  pass_rate 0 0 = 0%float ∧
  (1 ≤ passed + failed →
   ∃ k : Z,
     (pass_rate passed failed =? JS.float_of_Z k)%float = true ∧
     (0 ≤ k ≤ 100)%Z ∧
     (Z.abs (2 * (k * Z.of_nat (passed + failed) - 100 * Z.of_nat passed))
      ≤ Z.of_nat (passed + failed))%Z).
Proof.
  intros Hn. split; [reflexivity|]. intros Hpos.
  pose proof rate_checked_200 as H. rewrite forallb_forall in H.
  specialize (H (passed + failed)). rewrite forallb_forall in H.
  assert (Hin : In (passed + failed) (seq 1 200)) by (apply in_seq; lia).
  specialize (H Hin passed).
  assert (Hin' : In passed (seq 0 (S (passed + failed)))) by (apply in_seq; lia).
  specialize (H Hin'). replace (passed + failed - passed) with failed in H by lia.
  unfold rate_checked in H. apply orb_true_iff in H.
  assert (Hk : ∀ k, rate_within_half passed failed k = true →
    (pass_rate passed failed =? JS.float_of_Z k)%float = true ∧
    (0 ≤ k ≤ 100)%Z ∧
    (Z.abs (2 * (k * Z.of_nat (passed + failed) - 100 * Z.of_nat passed))
     ≤ Z.of_nat (passed + failed))%Z).
  { intros k Hk. unfold rate_within_half in Hk.
    apply andb_true_iff in Hk as [Hk Hhalf].
    apply andb_true_iff in Hk as [Hk Hhi].
    apply andb_true_iff in Hk as [Hk Hlo].
    apply Z.leb_le in Hhalf, Hhi, Hlo. done. }
  destruct H as [H|H]; eexists; by apply Hk.
Qed.

Lemma pass_rate_whole_percent_witness :
  ∃ k : Z, (pass_rate 23 17 =? JS.float_of_Z k)%float = true ∧ (0 ≤ k ≤ 100)%Z.
Proof.
  destruct (pass_rate_whole_percent 23 17) as [_ H]; [lia|].
  destruct H as (k & Hk & Hrange & _); [lia|]. by exists k.
Defined.
